(** * Verisume: the upload-and-analyze pipeline of [app/routes/upload.tsx]

    A shallow embedding of the [Upload] route component: its two handlers
    [handleSubmit] and [handleAnalyze], the component state they update and
    the external services they call (Puter's [fs], [kv] and [ai], the PDF
    rasterizer, the identifier generator, the router).

    Conventions.
    - A JavaScript string is a [string]: a sequence of code units below 256.
      The strings inside a parsed JSON document are lists of 16-bit code
      units ([list N]), because a [\uXXXX] escape can denote any of them.
    - A JavaScript number inside a JSON document is kept as the exact
      rational value of its literal; rounding to a double is not modelled.
    - An [await]ed call either fulfils with a value or rejects with an
      error; rejections are the exceptions [handleAnalyze] catches. *)

From Stdlib Require Import ZArith QArith Ascii String List Lia.
From stdpp Require Import base option list strings gmap pretty.

Set Warnings "-register-all".

Local Open Scope Z_scope.
Local Open Scope list_scope.
Local Open Scope string_scope.

(** ** JSON documents and [JSON.parse] *)

Module JSON.

Inductive value : Type :=
| Null
| Bool (b : bool)
| Number (q : Q)
| Str (s : list N)
| Array (elements : list value)
| Object (members : list (list N * value)).
(* The members of an object are kept in the order of the text; the order in
   which an engine enumerates integer-like keys is not modelled. *)

Inductive token : Type :=
| TLBrace | TRBrace | TLBracket | TRBracket | TColon | TComma
| TString (s : list N)
| TNumber (q : Q)
| TTrue | TFalse | TNull.

Definition dquote : ascii := "034"%char.
Definition backslash : ascii := "092"%char.

(** The code units of a string. *)
Definition units (s : string) : list N :=
  map N_of_ascii (list_ascii_of_string s).

Definition is_digit (c : ascii) : bool :=
  ((48 <=? N_of_ascii c) && (N_of_ascii c <=? 57))%N.

Definition digit_val (c : ascii) : Z := Z.of_N (N_of_ascii c) - 48.

Definition hex_val (c : ascii) : option N :=
  let n := N_of_ascii c in
  if ((48 <=? n) && (n <=? 57))%N then Some (n - 48)%N
  else if ((65 <=? n) && (n <=? 70))%N then Some (n - 55)%N
  else if ((97 <=? n) && (n <=? 102))%N then Some (n - 87)%N
  else None.

(** JSON white space: space, tab, line feed, carriage return. *)
Definition is_ws (c : ascii) : bool :=
  let n := N_of_ascii c in
  ((n =? 32) || (n =? 9) || (n =? 10) || (n =? 13))%N.

(** The body of a string literal, after its opening quote. *)
Fixpoint lex_string (s : list ascii) (acc : list N)
  : option (list N * list ascii) :=
  match s with
  | [] => None
  | c :: rest =>
    if Ascii.eqb c dquote then Some (rev acc, rest)
    else if Ascii.eqb c backslash then
      match rest with
      | e :: rest' =>
        if Ascii.eqb e dquote then lex_string rest' (34%N :: acc)
        else if Ascii.eqb e backslash then lex_string rest' (92%N :: acc)
        else if Ascii.eqb e "/" then lex_string rest' (47%N :: acc)
        else if Ascii.eqb e "b" then lex_string rest' (8%N :: acc)
        else if Ascii.eqb e "f" then lex_string rest' (12%N :: acc)
        else if Ascii.eqb e "n" then lex_string rest' (10%N :: acc)
        else if Ascii.eqb e "r" then lex_string rest' (13%N :: acc)
        else if Ascii.eqb e "t" then lex_string rest' (9%N :: acc)
        else if Ascii.eqb e "u" then
          match rest' with
          | h1 :: h2 :: h3 :: h4 :: rest'' =>
            match hex_val h1, hex_val h2, hex_val h3, hex_val h4 with
            | Some a, Some b, Some c', Some d =>
              lex_string rest'' ((((a * 16 + b) * 16 + c') * 16 + d)%N :: acc)
            | _, _, _, _ => None
            end
          | _ => None
          end
        else None
      | [] => None
      end
    else if (N_of_ascii c <? 32)%N then None
    else lex_string rest (N_of_ascii c :: acc)
  end.

(** A maximal run of digits: its value, its length and what follows. *)
Fixpoint lex_digits (s : list ascii) (acc : Z) (n : Z)
  : Z * Z * list ascii :=
  match s with
  | c :: rest =>
    if is_digit c then lex_digits rest (10 * acc + digit_val c) (n + 1)
    else (acc, n, s)
  | [] => (acc, n, s)
  end.

(** The integer part: a single [0], or a run that starts with [1]..[9]. *)
Definition lex_int (s : list ascii) : option (Z * list ascii) :=
  match s with
  | c :: rest =>
    if Ascii.eqb c "0" then Some (0, rest)
    else if is_digit c then
      let '(i, _, rest') := lex_digits s 0 0 in Some (i, rest')
    else None
  | [] => None
  end.

(** The optional fraction: its digits as an integer and their count. *)
Definition lex_frac (s : list ascii) : option (Z * Z * list ascii) :=
  match s with
  | c :: rest =>
    if Ascii.eqb c "." then
      let '(f, n, rest') := lex_digits rest 0 0 in
      if Z.eqb n 0 then None else Some (f, n, rest')
    else Some (0, 0, s)
  | [] => Some (0, 0, s)
  end.

(** The optional exponent. *)
Definition lex_exp (s : list ascii) : option (Z * list ascii) :=
  match s with
  | c :: rest =>
    if Ascii.eqb c "e" || Ascii.eqb c "E" then
      let '(sign, rest1) :=
        match rest with
        | d :: rest1 =>
          if Ascii.eqb d "-" then (-1, rest1)
          else if Ascii.eqb d "+" then (1, rest1)
          else (1, rest)
        | [] => (1, rest)
        end in
      let '(e, n, rest2) := lex_digits rest1 0 0 in
      if Z.eqb n 0 then None else Some (sign * e, rest2)
    else Some (0, s)
  | [] => Some (0, s)
  end.

Definition lex_number (s : list ascii) : option (Q * list ascii) :=
  let '(sign, s1) :=
    match s with
    | c :: rest => if Ascii.eqb c "-" then (-1, rest) else (1, s)
    | [] => (1, s)
    end in
  match lex_int s1 with
  | Some (i, s2) =>
    match lex_frac s2 with
    | Some (f, n, s3) =>
      match lex_exp s3 with
      | Some (e, s4) =>
        Some (Qred (inject_Z (sign * (i * 10 ^ n + f)) * Qpower 10 (e - n)),
              s4)
      | None => None
      end
    | None => None
    end
  | None => None
  end.

Fixpoint lex (fuel : nat) (s : list ascii) : option (list token) :=
  match fuel with
  | O => None
  | S fuel =>
    match s with
    | [] => Some []
    | c :: rest =>
      if is_ws c then lex fuel rest
      else if Ascii.eqb c "{" then cons TLBrace <$> lex fuel rest
      else if Ascii.eqb c "}" then cons TRBrace <$> lex fuel rest
      else if Ascii.eqb c "[" then cons TLBracket <$> lex fuel rest
      else if Ascii.eqb c "]" then cons TRBracket <$> lex fuel rest
      else if Ascii.eqb c ":" then cons TColon <$> lex fuel rest
      else if Ascii.eqb c "," then cons TComma <$> lex fuel rest
      else if Ascii.eqb c dquote then
        match lex_string rest [] with
        | Some (str, rest') => cons (TString str) <$> lex fuel rest'
        | None => None
        end
      else if Ascii.eqb c "-" || is_digit c then
        match lex_number s with
        | Some (q, rest') => cons (TNumber q) <$> lex fuel rest'
        | None => None
        end
      else
        match s with
        | "t" :: "r" :: "u" :: "e" :: rest' =>
          cons TTrue <$> lex fuel rest'
        | "f" :: "a" :: "l" :: "s" :: "e" :: rest' =>
          cons TFalse <$> lex fuel rest'
        | "n" :: "u" :: "l" :: "l" :: rest' =>
          cons TNull <$> lex fuel rest'
        | _ => None
        end
    end
  end%char.

Definition key_eqb (k1 k2 : list N) : bool :=
  bool_decide (k1 = k2).

(** Defining a property: a repeated key keeps its place and takes the
    later value. *)
Fixpoint set_member (k : list N) (v : value) (ms : list (list N * value))
  : list (list N * value) :=
  match ms with
  | [] => [(k, v)]
  | (k', v') :: ms' =>
    if key_eqb k k' then (k', v) :: ms' else (k', v') :: set_member k v ms'
  end.

Fixpoint parse_value (fuel : nat) (ts : list token)
  : option (value * list token) :=
  match fuel with
  | O => None
  | S fuel =>
    match ts with
    | TNull :: r => Some (Null, r)
    | TTrue :: r => Some (Bool true, r)
    | TFalse :: r => Some (Bool false, r)
    | TNumber q :: r => Some (Number q, r)
    | TString s :: r => Some (Str s, r)
    | TLBracket :: TRBracket :: r => Some (Array [], r)
    | TLBracket :: r => parse_elements fuel r []
    | TLBrace :: TRBrace :: r => Some (Object [], r)
    | TLBrace :: r => parse_members fuel r []
    | _ => None
    end
  end
with parse_elements (fuel : nat) (ts : list token) (acc : list value)
  : option (value * list token) :=
  match fuel with
  | O => None
  | S fuel =>
    match parse_value fuel ts with
    | Some (v, TComma :: r) => parse_elements fuel r (v :: acc)
    | Some (v, TRBracket :: r) => Some (Array (rev (v :: acc)), r)
    | _ => None
    end
  end
with parse_members (fuel : nat) (ts : list token)
       (acc : list (list N * value))
  : option (value * list token) :=
  match fuel with
  | O => None
  | S fuel =>
    match ts with
    | TString k :: TColon :: r =>
      match parse_value fuel r with
      | Some (v, TComma :: r') => parse_members fuel r' (set_member k v acc)
      | Some (v, TRBrace :: r') => Some (Object (set_member k v acc), r')
      | _ => None
      end
    | _ => None
    end
  end.

(** Lexing, then parsing one value that takes all the tokens. *)
Definition parse_with (lex_fuel parse_fuel : nat) (text : string)
  : option value :=
  match lex lex_fuel (list_ascii_of_string text) with
  | Some ts =>
    match parse_value parse_fuel ts with
    | Some (v, []) => Some v
    | _ => None
    end
  | None => None
  end.

(** [JSON.parse]: [None] stands for the [SyntaxError] it throws. The fuel
    is what a text of that length can need; more changes nothing (see
    [parse_with_more_fuel]). *)
Definition parse (text : string) : option value :=
  let n := length (list_ascii_of_string text) in
  parse_with (S n) (S (2 * n)) text.

End JSON.

(** ** Strings: [String.prototype.trim] and truthiness *)

(** White space and line terminators among the code units below 256: tab,
    line feed, vertical tab, form feed, carriage return, space, no-break
    space. *)
Definition is_white_space (c : ascii) : bool :=
  let n := N_of_ascii c in
  ((n =? 9) || (n =? 10) || (n =? 11) || (n =? 12) || (n =? 13)
   || (n =? 32) || (n =? 160))%N.

Fixpoint trimStart (s : string) : string :=
  match s with
  | EmptyString => EmptyString
  | String c s' => if is_white_space c then trimStart s' else s
  end.

Fixpoint reverse_onto (s acc : string) : string :=
  match s with
  | EmptyString => acc
  | String c s' => reverse_onto s' (String c acc)
  end.

Definition reverse (s : string) : string := reverse_onto s EmptyString.

Definition trimEnd (s : string) : string := reverse (trimStart (reverse s)).

Definition trim (s : string) : string := trimEnd (trimStart s).

(** [!s] for a string: only the empty string is falsy. *)
Definition is_empty (s : string) : bool :=
  match s with EmptyString => true | String _ _ => false end.

(** [!v?.trim()] for [v : string | null]. *)
Definition blank (v : option string) : bool :=
  match v with
  | None => true
  | Some s => is_empty (trim s)
  end.

(** The cast [as string] of a form entry; every use below is guarded by
    [blank], so the value is present where it is read. *)
Definition as_string (v : option string) : string :=
  match v with Some s => s | None => EmptyString end.

(** ** The interfaces the component consumes *)

Module File.
Record t : Type := { name : string; type : string; content : string }.
End File.

Module FSItem.
Record t : Type := { path : string }.
End FSItem.

Module PdfConversionResult.
Record t : Type :=
  { imageUrl : string; file : option File.t; error : option string }.
End PdfConversionResult.

Module AIResponse.
Record part : Type := { text : string }.
(** [content: string | part[]] *)
Inductive content_t : Type :=
| ContentString (s : string)
| ContentParts (parts : list part).
Record message_t : Type := { content : content_t }.
Record t : Type := { message : message_t }.
End AIResponse.

Module FormEvent.
(** [new FormData(e.currentTarget)] as the lookup [formData.get]. *)
Record t : Type := { currentTarget : string -> option string }.
End FormEvent.

(** The object [data] that [handleAnalyze] builds and serializes. *)
Module Data.
Record t : Type :=
  { id : string;
    resumePath : string;
    imagePath : string;
    companyName : string;
    jobTitle : string;
    jobDescription : string;
    feedback : JSON.value }.
End Data.

Inductive JsError : Type :=
| TypeError
| SyntaxError
| ServiceError (reason : string).

(** How an awaited promise settles. *)
Inductive Settled (A : Type) : Type :=
| Fulfilled (a : A)
| Rejected (e : JsError).
Arguments Fulfilled {A} a.
Arguments Rejected {A} e.

(** Everything the handlers do to the outside, in the order they do it. *)
Inductive Event : Type :=
| Ev_preventDefault
| Ev_alert (msg : string)
| Ev_setIsProcessing (b : bool)
| Ev_setStatusText (s : string)
| Ev_fs_upload (f : File.t) (r : Settled (option FSItem.t))
| Ev_convertPdfToImage (f : File.t) (r : Settled PdfConversionResult.t)
| Ev_generateUUID (r : string)
| Ev_kv_set (key value : string) (r : Settled bool)
| Ev_ai_feedback (path instructions : string)
    (r : Settled (option AIResponse.t))
| Ev_console_log (d : Data.t)
| Ev_console_error (e : JsError)
| Ev_navigate (to : string).

(** The external services, as functions of a world state [W] of their own:
    what a call returns may depend on everything that happened before. *)
Record Services (W : Type) : Type :=
  { svc_fs_upload : File.t -> W -> Settled (option FSItem.t) * W;
    svc_convertPdfToImage : File.t -> W -> Settled PdfConversionResult.t * W;
    svc_generateUUID : W -> string * W;
    svc_kv_set : string -> string -> W -> Settled bool * W;
    svc_ai_feedback :
      string -> string -> W -> Settled (option AIResponse.t) * W }.
Arguments svc_fs_upload {W} _ _ _.
Arguments svc_convertPdfToImage {W} _ _ _.
Arguments svc_generateUUID {W} _ _.
Arguments svc_kv_set {W} _ _ _ _.
Arguments svc_ai_feedback {W} _ _ _ _.

(** The component: its [useState] cells, the world and the event log. *)
Record State (W : Type) : Type :=
  { world : W;
    isProcessing : bool;
    statusText : string;
    file : option File.t;
    log : list Event }.
Arguments world {W} _.
Arguments isProcessing {W} _.
Arguments statusText {W} _.
Arguments file {W} _.
Arguments log {W} _.

(** How a handler's body completes. *)
Inductive Completion (A : Type) : Type :=
| Normal (a : A)
| Throw (e : JsError).
Arguments Normal {A} a.
Arguments Throw {A} e.

Definition M (W A : Type) : Type := State W -> Completion A * State W.

Definition ret {W A} (a : A) : M W A := fun st => (Normal a, st).

Definition bind {W A B} (m : M W A) (k : A -> M W B) : M W B :=
  fun st =>
    match m st with
    | (Normal a, st') => k a st'
    | (Throw e, st') => (Throw e, st')
    end.

Definition throw {W A} (e : JsError) : M W A := fun st => (Throw e, st).

(** [try { body } catch (error) { handler }]: what [body] did before it
    threw stays done. *)
Definition try_catch {W A} (body : M W A) (handler : JsError -> M W A)
  : M W A :=
  fun st =>
    match body st with
    | (Normal a, st') => (Normal a, st')
    | (Throw e, st') => handler e st'
    end.

Declare Scope js_scope.
Delimit Scope js_scope with js.
Notation "x <- m ;; k" := (bind m (fun x => k))
  (at level 100, m at next level, right associativity) : js_scope.
Notation "m ;; k" := (bind m (fun _ => k))
  (at level 100, right associativity) : js_scope.

(** ** The component [Upload] *)

Section Upload.

Context {W : Type}.

(** The services the component is connected to. *)
Variable puter : Services W.

(** [JSON.stringify] on [data]. Its output depends on how the engine prints
    numbers, so it is a parameter of the development. *)
Variable JSON_stringify : Data.t -> string.

(** [prepareInstructions] from [~/constants]: builds the instruction text
    from the job title and the job description. *)
Variable prepareInstructions : string -> string -> string.

Local Open Scope js_scope.

Definition emit (e : Event) : M W unit :=
  fun st =>
    (Normal tt,
     {| world := world st; isProcessing := isProcessing st;
        statusText := statusText st; file := file st;
        log := log st ++ [e] |}).

Definition setIsProcessing (b : bool) : M W unit :=
  fun st =>
    (Normal tt,
     {| world := world st; isProcessing := b;
        statusText := statusText st; file := file st;
        log := log st ++ [Ev_setIsProcessing b] |}).

Definition setStatusText (s : string) : M W unit :=
  fun st =>
    (Normal tt,
     {| world := world st; isProcessing := isProcessing st;
        statusText := s; file := file st;
        log := log st ++ [Ev_setStatusText s] |}).

Definition setFile (f : option File.t) : M W unit :=
  fun st =>
    (Normal tt,
     {| world := world st; isProcessing := isProcessing st;
        statusText := statusText st; file := f; log := log st |}).

Definition get_file : M W (option File.t) := fun st => (Normal (file st), st).

(** [await call]: the service answers, the answer is logged, and a
    rejection becomes a thrown exception. *)
Definition await {A} (call : W -> Settled A * W) (ev : Settled A -> Event)
  : M W A :=
  fun st =>
    let (r, w) := call (world st) in
    let st' :=
      {| world := w; isProcessing := isProcessing st;
         statusText := statusText st; file := file st;
         log := log st ++ [ev r] |} in
    match r with
    | Fulfilled a => (Normal a, st')
    | Rejected e => (Throw e, st')
    end.

Definition fs_upload (f : File.t) : M W (option FSItem.t) :=
  await (svc_fs_upload puter f) (Ev_fs_upload f).

Definition convertPdfToImage (f : File.t) : M W PdfConversionResult.t :=
  await (svc_convertPdfToImage puter f) (Ev_convertPdfToImage f).

Definition kv_set (key value : string) : M W bool :=
  await (svc_kv_set puter key value) (Ev_kv_set key value).

Definition ai_feedback (path instructions : string)
  : M W (option AIResponse.t) :=
  await (svc_ai_feedback puter path instructions)
        (Ev_ai_feedback path instructions).

Definition generateUUID : M W string :=
  fun st =>
    let (uuid, w) := svc_generateUUID puter (world st) in
    (Normal uuid,
     {| world := w; isProcessing := isProcessing st;
        statusText := statusText st; file := file st;
        log := log st ++ [Ev_generateUUID uuid] |}).

Definition navigate (to : string) : M W unit := emit (Ev_navigate to).
Definition alert (msg : string) : M W unit := emit (Ev_alert msg).
Definition console_log (d : Data.t) : M W unit := emit (Ev_console_log d).
Definition console_error (e : JsError) : M W unit :=
  emit (Ev_console_error e).
Definition preventDefault : M W unit := emit Ev_preventDefault.

(** [JSON.parse(text)], throwing [SyntaxError] on a malformed text. *)
Definition JSON_parse (text : string) : M W JSON.value :=
  match JSON.parse text with
  | Some v => ret v
  | None => throw SyntaxError
  end.

(** [typeof feedback.message.content === 'string'
       ? feedback.message.content : feedback.message.content[0].text];
    on an empty array [content[0]] is [undefined] and reading [.text]
    throws [TypeError]. *)
Definition feedbackText (feedback : AIResponse.t) : M W string :=
  match AIResponse.content (AIResponse.message feedback) with
  | AIResponse.ContentString s => ret s
  | AIResponse.ContentParts (p :: _) => ret (AIResponse.text p)
  | AIResponse.ContentParts [] => throw TypeError
  end.

Definition handleFileSelect (f : option File.t) : M W unit := setFile f.

Definition handleAnalyze
    (companyName jobTitle jobDescription : string) (file : File.t)
  : M W unit :=
  try_catch
    (setIsProcessing true;;
     setStatusText "Uploading the file...";;
     uploadedFile <- fs_upload file;;
     match uploadedFile with
     | None =>
       setStatusText "Error: Failed to upload file";;
       setIsProcessing false;;
       ret tt
     | Some uploadedFile =>
       setStatusText "Converting to image...";;
       imageFile <- convertPdfToImage file;;
       match PdfConversionResult.file imageFile with
       | None =>
         setStatusText "Error: Failed to convert PDF to image";;
         setIsProcessing false;;
         ret tt
       | Some imageFile_file =>
         setStatusText "Uploading the image...";;
         uploadedImage <- fs_upload imageFile_file;;
         match uploadedImage with
         | None =>
           setStatusText "Error: Failed to upload image";;
           setIsProcessing false;;
           ret tt
         | Some uploadedImage =>
           setStatusText "Preparing data...";;
           uuid <- generateUUID;;
           let data :=
             {| Data.id := uuid;
                Data.resumePath := FSItem.path uploadedFile;
                Data.imagePath := FSItem.path uploadedImage;
                Data.companyName := companyName;
                Data.jobTitle := jobTitle;
                Data.jobDescription := jobDescription;
                Data.feedback := JSON.Null |} in
           kv_set ("resume:" ++ uuid) (JSON_stringify data);;
           setStatusText "Analyzing...";;
           feedback <- ai_feedback (FSItem.path uploadedFile)
                         (prepareInstructions jobTitle jobDescription);;
           match feedback with
           | None =>
             setStatusText "Error: Failed to analyze resume";;
             setIsProcessing false;;
             ret tt
           | Some feedback =>
             feedbackText <- feedbackText feedback;;
             parsed <- JSON_parse feedbackText;;
             let data :=
               {| Data.id := Data.id data;
                  Data.resumePath := Data.resumePath data;
                  Data.imagePath := Data.imagePath data;
                  Data.companyName := Data.companyName data;
                  Data.jobTitle := Data.jobTitle data;
                  Data.jobDescription := Data.jobDescription data;
                  Data.feedback := parsed |} in
             kv_set ("resume:" ++ uuid) (JSON_stringify data);;
             setStatusText "Analysis complete, redirecting...";;
             console_log data;;
             navigate ("/resume/" ++ uuid)
           end
         end
       end
     end)
    (fun error =>
       console_error error;;
       setStatusText "Error: Something went wrong during analysis";;
       setIsProcessing false).

Definition handleSubmit (e : FormEvent.t) : M W unit :=
  preventDefault;;
  let formData := FormEvent.currentTarget e in
  let companyName := formData "company-name" in
  let jobTitle := formData "job-title" in
  let jobDescription := formData "job-description" in
  if blank companyName then alert "Please enter a company name"
  else if blank jobTitle then alert "Please enter a job title"
  else if blank jobDescription then alert "Please enter a job description"
  else
    file <- get_file;;
    match file with
    | None => alert "Please select a PDF file to upload"
    | Some file =>
      if negb (String.eqb (File.type file) "application/pdf")
      then alert "Please upload a PDF file"
      else handleAnalyze (as_string companyName) (as_string jobTitle)
             (as_string jobDescription) file
    end.

(** The submit button's [disabled={!file || isProcessing}]; the form itself
    is rendered only while [!isProcessing]. *)
Definition submit_disabled (st : State W) : bool :=
  negb (bool_decide (is_Some (file st))) || isProcessing st.

Definition form_rendered (st : State W) : bool := negb (isProcessing st).

End Upload.

Arguments JSON.parse : simpl never.

(** ** Observing a run *)

(** A run starts with an empty log: everything in the log afterwards was
    done by the handler. *)
Definition clear_log {W} (st : State W) : State W :=
  {| world := world st; isProcessing := isProcessing st;
     statusText := statusText st; file := file st; log := [] |}.

Definition is_fs_upload (e : Event) : bool :=
  match e with Ev_fs_upload _ _ => true | _ => false end.
Definition is_convertPdfToImage (e : Event) : bool :=
  match e with Ev_convertPdfToImage _ _ => true | _ => false end.
Definition is_kv_set (e : Event) : bool :=
  match e with Ev_kv_set _ _ _ => true | _ => false end.
Definition is_ai_feedback (e : Event) : bool :=
  match e with Ev_ai_feedback _ _ _ => true | _ => false end.
Definition is_navigate (e : Event) : bool :=
  match e with Ev_navigate _ => true | _ => false end.

(** Calls to the Blob Store, the Rasterizer, the KV Store or the Feedback
    Generator. *)
Definition is_service_call (e : Event) : bool :=
  is_fs_upload e || is_convertPdfToImage e || is_kv_set e || is_ai_feedback e.

Definition calls (which : Event -> bool) (l : list Event) : list Event :=
  List.filter which l.

(** The pipeline steps a log shows, with what each one was called on. *)
Inductive Step : Type :=
| UploadStep (f : File.t)
| RasterizeStep (f : File.t)
| PersistStep (key : string)
| FeedbackStep (path : string).

Definition step_of (e : Event) : option Step :=
  match e with
  | Ev_fs_upload f _ => Some (UploadStep f)
  | Ev_convertPdfToImage f _ => Some (RasterizeStep f)
  | Ev_kv_set key _ _ => Some (PersistStep key)
  | Ev_ai_feedback path _ _ => Some (FeedbackStep path)
  | _ => None
  end.

Definition steps (l : list Event) : list Step := omap step_of l.

Definition is_upload_step (s : Step) : bool :=
  match s with UploadStep _ => true | _ => false end.
Definition is_rasterize_step (s : Step) : bool :=
  match s with RasterizeStep _ => true | _ => false end.

(** Every step of the first kind comes before every step of the second. *)
Definition occurs_before (a b : Step -> bool) (l : list Step) : Prop :=
  forall i j x y,
    l !! i = Some x -> a x = true ->
    l !! j = Some y -> b y = true ->
    (i < j)%nat.

(** Modelled from the spec: the Key-Value Store behind [kv.set], which the
    repository only calls. "[set(key, value)] returns a boolean-like success
    indicator; [get(key)] returns [string | null]": a write that reports
    success binds the key to the value, any other write changes nothing. *)
Definition kv_write (store : gmap string string) (e : Event)
  : gmap string string :=
  match e with
  | Ev_kv_set key value (Fulfilled true) => <[key := value]> store
  | _ => store
  end.

Definition kv_after (store : gmap string string) (l : list Event)
  : gmap string string :=
  foldl kv_write store l.

Definition kv_get (store : gmap string string) (key : string)
  : option string :=
  store !! key.

(** ** Vocabulary of the specification *)

(** Empty or made of white space only. *)
Definition whitespace_only (s : string) : Prop :=
  Forall (fun c => is_white_space c = true) (list_ascii_of_string s).

(** A form entry that is absent, empty or white space only. *)
Definition missing (v : option string) : Prop :=
  forall s, v = Some s -> whitespace_only s.

(** A submission that violates a precondition of the analysis. *)
Definition invalid_submission {W} (e : FormEvent.t) (st : State W) : Prop :=
  missing (FormEvent.currentTarget e "company-name")
  \/ missing (FormEvent.currentTarget e "job-title")
  \/ missing (FormEvent.currentTarget e "job-description")
  \/ file st = None
  \/ (exists f, file st = Some f /\ File.type f <> "application/pdf").

Definition validation_messages : list string :=
  [ "Please enter a company name";
    "Please enter a job title";
    "Please enter a job description";
    "Please select a PDF file to upload";
    "Please upload a PDF file" ].

Definition error_messages : list string :=
  [ "Error: Failed to upload file";
    "Error: Failed to convert PDF to image";
    "Error: Failed to upload image";
    "Error: Failed to analyze resume";
    "Error: Something went wrong during analysis" ].

(** The critique text of a feedback result, in the words of the spec: the
    content itself when it is a plain string, the first part's text when it
    is a sequence of parts. *)
Definition critique (feedback : AIResponse.t) (text : string) : Prop :=
  match AIResponse.content (AIResponse.message feedback) with
  | AIResponse.ContentString s => text = s
  | AIResponse.ContentParts parts =>
    exists p, head parts = Some p /\ text = AIResponse.text p
  end.

(** The text [{"score":80}] and the document it denotes. *)
Definition score_text : string :=
  "{" ++ String JSON.dquote "score" ++ String JSON.dquote ":80}".

Definition score_object : JSON.value :=
  JSON.Object [(JSON.units "score", JSON.Number (inject_Z 80))].

(** The AnalysisRecord of one run. *)
Definition record (uuid : string) (uploadedFile uploadedImage : FSItem.t)
    (companyName jobTitle jobDescription : string) (feedback : JSON.value)
  : Data.t :=
  {| Data.id := uuid;
     Data.resumePath := FSItem.path uploadedFile;
     Data.imagePath := FSItem.path uploadedImage;
     Data.companyName := companyName;
     Data.jobTitle := jobTitle;
     Data.jobDescription := jobDescription;
     Data.feedback := feedback |}.

(** The last [n] events of a log. *)
Definition ending (n : nat) (l : list Event) : list Event :=
  drop (length l - n) l.

(** The user is told of an error: a status text that announces one, or an
    alert. *)
Definition reports_error (l : list Event) : Prop :=
  (exists s, Ev_setStatusText s ∈ l /\ s ∈ error_messages)
  \/ (exists msg, Ev_alert msg ∈ l).

(** ** A serializer and scripted services, to run the component *)

Module Printer.

Local Open Scope string_scope.

Definition hex_digit (n : N) : ascii :=
  ascii_of_N (if (n <? 10)%N then 48 + n else 87 + n)%N.

(** One code unit inside a string literal, escaped as [JSON.stringify]
    escapes it: the quote, the backslash and the control characters. A unit
    above 255 has no place in a [string] and is written as a [\uXXXX]
    escape, which denotes the same document. *)
Definition escape_unit (u : N) : string :=
  if (u =? 34)%N then String JSON.backslash (String JSON.dquote EmptyString)
  else if (u =? 92)%N then "\\"
  else if (u =? 8)%N then "\b"
  else if (u =? 12)%N then "\f"
  else if (u =? 10)%N then "\n"
  else if (u =? 13)%N then "\r"
  else if (u =? 9)%N then "\t"
  else if ((32 <=? u) && (u <? 256))%N then String (ascii_of_N u) EmptyString
  else
    "\u" ++ String (hex_digit (u / 4096 mod 16))
             (String (hex_digit (u / 256 mod 16))
                (String (hex_digit (u / 16 mod 16))
                   (String (hex_digit (u mod 16)) EmptyString))).

Definition quoted (s : list N) : string :=
  String JSON.dquote
    (foldr (fun u acc => escape_unit u ++ acc)
       (String JSON.dquote EmptyString) s).

(** The least [k] with [d] dividing [n * 10 ^ k], and that quotient. *)
Fixpoint decimal_shift (fuel : nat) (n d k : Z) : option (Z * Z) :=
  if Z.eqb ((n * 10 ^ k) mod d) 0 then Some (n * 10 ^ k / d, k)
  else
    match fuel with
    | O => None
    | S fuel => decimal_shift fuel n d (k + 1)
    end.

Fixpoint zeros (n : nat) : string :=
  match n with
  | O => EmptyString
  | S n => String "0" (zeros n)
  end.

Definition pad_left (width : nat) (s : string) : string :=
  zeros (width - String.length s) ++ s.

(** Integers in plain digits, other decimals with their fraction. *)
Definition number_text (q : Q) : string :=
  let n := Qnum q in
  let d := Z.pos (Qden q) in
  if Z.eqb d 1 then pretty n
  else
    match decimal_shift (Pos.to_nat (Pos.size (Qden q))) (Z.abs n) d 0 with
    | Some (m, k) =>
      (if Z.ltb n 0 then "-" else EmptyString)
      ++ pretty (m / 10 ^ k) ++ "."
      ++ pad_left (Z.to_nat k) (pretty (m mod 10 ^ k))
    | None => "null"
    end.

Fixpoint print (v : JSON.value) : string :=
  match v with
  | JSON.Null => "null"
  | JSON.Bool true => "true"
  | JSON.Bool false => "false"
  | JSON.Number q => number_text q
  | JSON.Str s => quoted s
  | JSON.Array elements =>
    "[" ++
    (fix print_elements (l : list JSON.value) : string :=
       match l with
       | [] => EmptyString
       | [x] => print x
       | x :: l' => print x ++ "," ++ print_elements l'
       end) elements
    ++ "]"
  | JSON.Object members =>
    "{" ++
    (fix print_members (l : list (list N * JSON.value)) : string :=
       match l with
       | [] => EmptyString
       | [(k, x)] => quoted k ++ ":" ++ print x
       | (k, x) :: l' => quoted k ++ ":" ++ print x ++ "," ++ print_members l'
       end) members
    ++ "}"
  end.

(** The object [data] as a JSON document, its properties in the order the
    object literal lists them. *)
Definition document (d : Data.t) : JSON.value :=
  JSON.Object
    [ (JSON.units "id", JSON.Str (JSON.units (Data.id d)));
      (JSON.units "resumePath", JSON.Str (JSON.units (Data.resumePath d)));
      (JSON.units "imagePath", JSON.Str (JSON.units (Data.imagePath d)));
      (JSON.units "companyName", JSON.Str (JSON.units (Data.companyName d)));
      (JSON.units "jobTitle", JSON.Str (JSON.units (Data.jobTitle d)));
      (JSON.units "jobDescription",
       JSON.Str (JSON.units (Data.jobDescription d)));
      (JSON.units "feedback", Data.feedback d) ].

Definition stringify (d : Data.t) : string := print (document d).

End Printer.

(** Services that answer from a script: each call takes the next answer of
    its kind; with none left it rejects. *)
Module Script.

Local Open Scope string_scope.

Record t : Type :=
  { uploads : list (Settled (option FSItem.t));
    conversions : list (Settled PdfConversionResult.t);
    uuids : list string;
    writes : list (Settled bool);
    feedbacks : list (Settled (option AIResponse.t)) }.

Definition exhausted {A} : Settled A := Rejected (ServiceError "no answer").

Definition services : Services t :=
  {| svc_fs_upload := fun _ w =>
       match uploads w with
       | r :: rest =>
         (r, {| uploads := rest; conversions := conversions w;
                uuids := uuids w; writes := writes w;
                feedbacks := feedbacks w |})
       | [] => (exhausted, w)
       end;
     svc_convertPdfToImage := fun _ w =>
       match conversions w with
       | r :: rest =>
         (r, {| uploads := uploads w; conversions := rest;
                uuids := uuids w; writes := writes w;
                feedbacks := feedbacks w |})
       | [] => (exhausted, w)
       end;
     svc_generateUUID := fun w =>
       match uuids w with
       | r :: rest =>
         (r, {| uploads := uploads w; conversions := conversions w;
                uuids := rest; writes := writes w;
                feedbacks := feedbacks w |})
       | [] => ("00000000-0000-4000-8000-000000000000", w)
       end;
     svc_kv_set := fun _ _ w =>
       match writes w with
       | r :: rest =>
         (r, {| uploads := uploads w; conversions := conversions w;
                uuids := uuids w; writes := rest;
                feedbacks := feedbacks w |})
       | [] => (exhausted, w)
       end;
     svc_ai_feedback := fun _ _ w =>
       match feedbacks w with
       | r :: rest =>
         (r, {| uploads := uploads w; conversions := conversions w;
                uuids := uuids w; writes := writes w;
                feedbacks := rest |})
       | [] => (exhausted, w)
       end |}.

Definition instructions (jobTitle jobDescription : string) : string :=
  "Job title: " ++ jobTitle ++ ". Job description: " ++ jobDescription.

Definition resume_pdf : File.t :=
  {| File.name := "resume.pdf"; File.type := "application/pdf";
     File.content := "%PDF-1.7" |}.

Definition resume_png : File.t :=
  {| File.name := "resume.png"; File.type := "image/png";
     File.content := "PNG" |}.

Definition notes_txt : File.t :=
  {| File.name := "notes.txt"; File.type := "text/plain";
     File.content := "notes" |}.

Definition stored (p : string) : Settled (option FSItem.t) :=
  Fulfilled (Some {| FSItem.path := p |}).

Definition rasterized : Settled PdfConversionResult.t :=
  Fulfilled {| PdfConversionResult.imageUrl := "blob:resume.png";
               PdfConversionResult.file := Some resume_png;
               PdfConversionResult.error := None |}.

Definition answer (c : AIResponse.content_t)
  : Settled (option AIResponse.t) :=
  Fulfilled
    (Some {| AIResponse.message := {| AIResponse.content := c |} |}).

(** A world in which every service succeeds, up to the given answers of
    the KV Store and the Feedback Generator. *)
Definition world_with (ws : list (Settled bool))
    (fb : Settled (option AIResponse.t)) : t :=
  {| uploads := [stored "/resume.pdf"; stored "/resume.png"];
     conversions := [rasterized];
     uuids := ["3f2a"];
     writes := ws;
     feedbacks := [fb] |}.

Definition all_well (c : AIResponse.content_t) : t :=
  world_with [Fulfilled true; Fulfilled true] (answer c).

(** The component as mounted, with a selected file. *)
Definition mounted (w : t) (f : option File.t) : State t :=
  {| world := w; isProcessing := false; statusText := EmptyString;
     file := f; log := [] |}.

Definition form (company title description : option string) : FormEvent.t :=
  {| FormEvent.currentTarget := fun name =>
       if String.eqb name "company-name" then company
       else if String.eqb name "job-title" then title
       else if String.eqb name "job-description" then description
       else None |}.

Definition analyze (w : t) : Completion unit * State t :=
  handleAnalyze services Printer.stringify instructions
    "Acme" "Engineer" "Build things" resume_pdf (mounted w (Some resume_pdf)).

Definition log_of (w : t) : list Event := log (snd (analyze w)).

(** A world whose Blob Store refuses the first upload. *)
Definition blob_store_down : t :=
  {| uploads := [Fulfilled None];
     conversions := [rasterized];
     uuids := ["3f2a"];
     writes := [Fulfilled true; Fulfilled true];
     feedbacks := [answer (AIResponse.ContentString score_text)] |}.

(** Every service succeeds and the critique is [{"score":80}]. *)
Definition happy : t := all_well (AIResponse.ContentString score_text).

(** The same, the critique arriving as a one-element sequence of parts. *)
Definition happy_parts : t :=
  all_well (AIResponse.ContentParts [{| AIResponse.text := score_text |}]).

(** The Feedback Generator answers with nothing. *)
Definition feedback_down : t := world_with [Fulfilled true] (Fulfilled None).

(** The provisional write reports failure, by its value or by rejecting. *)
Definition kv_refusing : t :=
  world_with [Fulfilled false; Fulfilled true]
    (answer (AIResponse.ContentString score_text)).

Definition kv_rejecting : t :=
  world_with [Rejected (ServiceError "quota exceeded")]
    (answer (AIResponse.ContentString score_text)).

(** The critique is the JSON literal [null], or no JSON at all. *)
Definition null_critique : t := all_well (AIResponse.ContentString "null").

Definition prose_critique : t :=
  all_well (AIResponse.ContentString "Here is my feedback: good resume").

Definition uploaded_pdf : FSItem.t := {| FSItem.path := "/resume.pdf" |}.
Definition uploaded_png : FSItem.t := {| FSItem.path := "/resume.png" |}.

(** The record of these runs, with a given feedback. *)
Definition record_with (feedback : JSON.value) : Data.t :=
  record "3f2a" uploaded_pdf uploaded_png "Acme" "Engineer" "Build things"
    feedback.

Definition submit (e : FormEvent.t) (w : t) (f : option File.t)
  : Completion unit * State t :=
  handleSubmit services Printer.stringify instructions e (mounted w f).

End Script.

(** ** The rest of the component: the authentication effect and the page *)

(** The effect that checks authentication:
    [if (!isLoading && !auth.isAuthenticated) navigate('/auth?next=/upload')]. *)
Definition checkAuthentication {W} (isLoading isAuthenticated : bool)
  : M W unit :=
  if negb isLoading && negb isAuthenticated
  then navigate "/auth?next=/upload"
  else ret tt.

(** What the component returns: a tree of elements. A property is a string,
    a boolean, a number or a handler of the component, named. *)
Inductive PropValue : Type :=
| PString (s : string)
| PBool (b : bool)
| PNumber (n : Z)
| PHandler (name : string).

Inductive Node : Type :=
| Element (tag : string) (props : list (string * PropValue))
    (children : list Node)
| Text (s : string).

(** [{condition && nodes}]: nothing is rendered for a falsy condition. *)
Definition when (condition : bool) (nodes : list Node) : list Node :=
  if condition then nodes else [].

Definition form_div (children : list Node) : Node :=
  Element "div" [("className", PString "form-div")] children.

(** The [return] of [Upload], for a given [isLoading] of the store. *)
Definition render {W} (isLoading : bool) (st : State W) : Node :=
  if isLoading then
    Element "main"
      [("className", PString "bg-[url('/images/bg-main.svg')] bg-cover")]
      [ Element "Navbar" [] [];
        Element "section" [("className", PString "main-section")]
          [ Element "div" [("className", PString "page-heading")]
              [ Element "h1" [] [Text "Loading..."] ] ] ]
  else
    Element "main"
      [("className", PString "bg-[url('/images/bg-main.svg')] bg-cover")]
      [ Element "Navbar" [] [];
        Element "section" [("className", PString "main-section")]
          [ Element "div" [("className", PString "page-heading py-16")]
              ([ Element "h1" [] [Text "Smart feedback for your dream job"] ]
               ++ (if isProcessing st then
                     [ Element "h2" [] [Text (statusText st)];
                       Element "img"
                         [ ("src", PString "/images/resume-scan.gif");
                           ("className", PString "w-full") ] [] ]
                   else
                     [ Element "h2" []
                         [Text "Drop your resume for an ATS score and improvement tips"] ])
               ++ when (negb (isProcessing st))
                    [ Element "form"
                        [ ("id", PString "upload-form");
                          ("onSubmit", PHandler "handleSubmit");
                          ("className", PString "flex flex-col gap-4 mt-8") ]
                        [ form_div
                            [ Element "label"
                                [("htmlFor", PString "company-name")]
                                [Text "Company Name *"];
                              Element "input"
                                [ ("type", PString "text");
                                  ("name", PString "company-name");
                                  ("placeholder", PString "Company Name");
                                  ("id", PString "company-name");
                                  ("required", PBool true) ] [] ];
                          form_div
                            [ Element "label"
                                [("htmlFor", PString "job-title")]
                                [Text "Job Title *"];
                              Element "input"
                                [ ("type", PString "text");
                                  ("name", PString "job-title");
                                  ("placeholder", PString "Job Title");
                                  ("id", PString "job-title");
                                  ("required", PBool true) ] [] ];
                          form_div
                            [ Element "label"
                                [("htmlFor", PString "job-description")]
                                [Text "Job Description *"];
                              Element "textarea"
                                [ ("rows", PNumber 5);
                                  ("name", PString "job-description");
                                  ("placeholder", PString "Job Description");
                                  ("id", PString "job-description");
                                  ("required", PBool true) ] [] ];
                          form_div
                            ([ Element "label"
                                 [("htmlFor", PString "uploader")]
                                 [Text "Upload Resume (PDF) *"];
                               Element "FileUploader"
                                 [("onFileSelect", PHandler "handleFileSelect")]
                                 [] ]
                             ++ match file st with
                                | Some f =>
                                  [ Element "p"
                                      [("className",
                                        PString "text-sm text-green-600 mt-2")]
                                      [Text "Selected: "; Text (File.name f)] ]
                                | None => []
                                end);
                          Element "button"
                            [ ("className", PString "primary-button");
                              ("type", PString "submit");
                              ("disabled", PBool (submit_disabled st)) ]
                            [ Text (if isProcessing st then "Analyzing..."
                                    else "Analyze Resume") ] ] ]) ] ].

(** A node and everything below it, in document order. *)
Fixpoint descendants (n : Node) : list Node :=
  n :: match n with
       | Element _ _ children =>
         (fix below (l : list Node) : list Node :=
            match l with
            | [] => []
            | c :: l' => (descendants c ++ below l')%list
            end) children
       | Text _ => []
       end.

Definition has_tag (tag : string) (n : Node) : bool :=
  match n with
  | Element t _ _ => String.eqb t tag
  | Text _ => false
  end.

Definition by_tag (tag : string) (page : Node) : list Node :=
  List.filter (has_tag tag) (descendants page).

Fixpoint assoc (name : string) (props : list (string * PropValue))
  : option PropValue :=
  match props with
  | [] => None
  | (k, v) :: props' => if String.eqb k name then Some v else assoc name props'
  end.

Definition prop (name : string) (n : Node) : option PropValue :=
  match n with
  | Element _ props _ => assoc name props
  | Text _ => None
  end.

(** ** More ways to look at a log *)

Definition is_generateUUID (e : Event) : bool :=
  match e with Ev_generateUUID _ => true | _ => false end.

(** The error a service call rejected with. *)
Definition rejection (e : Event) : option JsError :=
  match e with
  | Ev_fs_upload _ (Rejected x) => Some x
  | Ev_convertPdfToImage _ (Rejected x) => Some x
  | Ev_kv_set _ _ (Rejected x) => Some x
  | Ev_ai_feedback _ _ (Rejected x) => Some x
  | _ => None
  end.

(** The status texts a log sets, in order. *)
Definition status_of (e : Event) : option string :=
  match e with Ev_setStatusText s => Some s | _ => None end.

Definition statuses (l : list Event) : list string := omap status_of l.

Definition progress_messages : list string :=
  [ "Uploading the file...";
    "Converting to image...";
    "Uploading the image...";
    "Preparing data...";
    "Analyzing...";
    "Analysis complete, redirecting..." ].

(** The two cells a run writes, [isProcessing] and [statusText], as the
    events of a log leave them. *)
Definition ui_step (ui : bool * string) (e : Event) : bool * string :=
  match e with
  | Ev_setIsProcessing b => (b, snd ui)
  | Ev_setStatusText s => (fst ui, s)
  | _ => ui
  end.

Definition ui_after (ui : bool * string) (l : list Event) : bool * string :=
  foldl ui_step ui l.

(** The component in the middle of a run that started from [st], after the
    events [l]. *)
Definition at_point {W} (st : State W) (l : list Event) : State W :=
  {| world := world st;
     isProcessing := fst (ui_after (isProcessing st, statusText st) l);
     statusText := snd (ui_after (isProcessing st, statusText st) l);
     file := file st;
     log := l |}.

(** A step of the pipeline that failed, as [handleAnalyze] takes it: an
    upload that did not return an item, a rasterization without a file, a
    feedback request without an answer, or any call that rejected. What a
    [kv.set] fulfils with is not looked at, so only its rejection counts. *)
Definition failed (e : Event) : bool :=
  match e with
  | Ev_fs_upload _ (Fulfilled (Some _)) => false
  | Ev_fs_upload _ _ => true
  | Ev_convertPdfToImage _ (Fulfilled r) =>
    match PdfConversionResult.file r with Some _ => false | None => true end
  | Ev_convertPdfToImage _ (Rejected _) => true
  | Ev_kv_set _ _ (Fulfilled _) => false
  | Ev_kv_set _ _ (Rejected _) => true
  | Ev_ai_feedback _ _ (Fulfilled (Some _)) => false
  | Ev_ai_feedback _ _ _ => true
  | _ => false
  end.

Definition is_console_error (e : Event) : bool :=
  match e with Ev_console_error _ => true | _ => false end.

(** A failure of the run shows in its log as a failed step or as the
    [console.error] of the [catch] block. *)
Definition failure (e : Event) : bool := failed e || is_console_error e.

(** The document a feedback yields: its critique text, parsed. [None] when
    there is no first part to read or the text is not JSON. *)
Definition critique_value (feedback : AIResponse.t) : option JSON.value :=
  match AIResponse.content (AIResponse.message feedback) with
  | AIResponse.ContentString s => JSON.parse s
  | AIResponse.ContentParts (p :: _) => JSON.parse (AIResponse.text p)
  | AIResponse.ContentParts [] => None
  end.

(** The calls to the services that a run on the file [f] can make, with
    their answers: the six steps in their order, each made only after the
    one before it succeeded, up to the first that fails. The image uploaded
    is the file the rasterizer returned, the feedback is requested on the
    path of the uploaded original, and both writes use one key. After a
    feedback whose critique yields no document the final write is not
    made. *)
Inductive pipeline_calls (f : File.t) (instructions : string)
  : list Event -> Prop :=
| stops_at_upload r :
    failed (Ev_fs_upload f r) = true ->
    pipeline_calls f instructions [Ev_fs_upload f r]
| stops_at_rasterization uf r :
    failed (Ev_convertPdfToImage f r) = true ->
    pipeline_calls f instructions
      [ Ev_fs_upload f (Fulfilled (Some uf));
        Ev_convertPdfToImage f r ]
| stops_at_image_upload uf conv img r :
    PdfConversionResult.file conv = Some img ->
    failed (Ev_fs_upload img r) = true ->
    pipeline_calls f instructions
      [ Ev_fs_upload f (Fulfilled (Some uf));
        Ev_convertPdfToImage f (Fulfilled conv);
        Ev_fs_upload img r ]
| stops_at_provisional_write uf conv img ui uuid value r :
    PdfConversionResult.file conv = Some img ->
    failed (Ev_kv_set ("resume:" ++ uuid) value r) = true ->
    pipeline_calls f instructions
      [ Ev_fs_upload f (Fulfilled (Some uf));
        Ev_convertPdfToImage f (Fulfilled conv);
        Ev_fs_upload img (Fulfilled (Some ui));
        Ev_kv_set ("resume:" ++ uuid) value r ]
| stops_at_feedback uf conv img ui uuid value written r :
    PdfConversionResult.file conv = Some img ->
    failed (Ev_ai_feedback (FSItem.path uf) instructions r) = true ->
    pipeline_calls f instructions
      [ Ev_fs_upload f (Fulfilled (Some uf));
        Ev_convertPdfToImage f (Fulfilled conv);
        Ev_fs_upload img (Fulfilled (Some ui));
        Ev_kv_set ("resume:" ++ uuid) value (Fulfilled written);
        Ev_ai_feedback (FSItem.path uf) instructions r ]
| stops_at_critique uf conv img ui uuid value written feedback :
    PdfConversionResult.file conv = Some img ->
    critique_value feedback = None ->
    pipeline_calls f instructions
      [ Ev_fs_upload f (Fulfilled (Some uf));
        Ev_convertPdfToImage f (Fulfilled conv);
        Ev_fs_upload img (Fulfilled (Some ui));
        Ev_kv_set ("resume:" ++ uuid) value (Fulfilled written);
        Ev_ai_feedback (FSItem.path uf) instructions
          (Fulfilled (Some feedback)) ]
| runs_to_the_end uf conv img ui uuid value written feedback parsed
    value' r :
    PdfConversionResult.file conv = Some img ->
    critique_value feedback = Some parsed ->
    pipeline_calls f instructions
      [ Ev_fs_upload f (Fulfilled (Some uf));
        Ev_convertPdfToImage f (Fulfilled conv);
        Ev_fs_upload img (Fulfilled (Some ui));
        Ev_kv_set ("resume:" ++ uuid) value (Fulfilled written);
        Ev_ai_feedback (FSItem.path uf) instructions
          (Fulfilled (Some feedback));
        Ev_kv_set ("resume:" ++ uuid) value' r ].

(** More scripted worlds. *)
Module Cases.

Local Open Scope string_scope.

(** The rasterizer produces no image. *)
Definition not_rasterized : Settled PdfConversionResult.t :=
  Fulfilled {| PdfConversionResult.imageUrl := EmptyString;
               PdfConversionResult.file := None;
               PdfConversionResult.error := Some "Failed to load PDF" |}.

Definition rasterizer_down : Script.t :=
  {| Script.uploads := [Script.stored "/resume.pdf"; Script.stored "/resume.png"];
     Script.conversions := [not_rasterized];
     Script.uuids := ["3f2a"];
     Script.writes := [Fulfilled true; Fulfilled true];
     Script.feedbacks := [Script.answer (AIResponse.ContentString score_text)] |}.

(** The Blob Store refuses the image. *)
Definition image_refused : Script.t :=
  {| Script.uploads := [Script.stored "/resume.pdf"; Fulfilled None];
     Script.conversions := [Script.rasterized];
     Script.uuids := ["3f2a"];
     Script.writes := [Fulfilled true; Fulfilled true];
     Script.feedbacks := [Script.answer (AIResponse.ContentString score_text)] |}.

(** The Feedback Generator rejects. *)
Definition feedback_rejecting : Script.t :=
  Script.world_with [Fulfilled true] (Rejected (ServiceError "model overloaded")).

(** The critique arrives as an empty sequence of parts. *)
Definition no_parts : Script.t :=
  Script.all_well (AIResponse.ContentParts []).

(** The final write reports failure. *)
Definition final_write_refused : Script.t :=
  Script.world_with [Fulfilled true; Fulfilled false]
    (Script.answer (AIResponse.ContentString score_text)).

Definition other_pdf : File.t :=
  {| File.name := "cv.pdf"; File.type := "application/pdf";
     File.content := "%PDF-1.4" |}.

Definition filled_form : FormEvent.t :=
  Script.form (Some " Acme ") (Some "Engineer") (Some "Build things").

End Cases.

Local Close Scope Z_scope.

(** ** The monad of handlers *)

Section Monad.

Context {W A B C : Type}.

Lemma bind_ret_l (a : A) (k : A -> M W B) (st : State W) :
  bind (ret a) k st = k a st.
Proof. reflexivity. Qed.

Lemma bind_ret_r (m : M W A) (st : State W) : bind m ret st = m st.
Proof. unfold bind, ret. by destruct (m st) as [[a|e] st']. Qed.

Lemma bind_assoc (m : M W A) (k : A -> M W B) (h : B -> M W C)
    (st : State W) :
  bind (bind m k) h st = bind m (fun a => bind (k a) h) st.
Proof. unfold bind. by destruct (m st) as [[a|e] st']. Qed.

Lemma bind_throw (e : JsError) (k : A -> M W B) (st : State W) :
  bind (throw e) k st = throw e st.
Proof. reflexivity. Qed.

Lemma try_catch_ret (a : A) (h : JsError -> M W A) (st : State W) :
  try_catch (ret a) h st = ret a st.
Proof. reflexivity. Qed.

Lemma try_catch_throw (e : JsError) (h : JsError -> M W A) (st : State W) :
  try_catch (throw e) h st = h e st.
Proof. reflexivity. Qed.

End Monad.

(** ** The fuel of the parser is enough *)

Lemma lex_digits_length (s : list ascii) (acc n : Z) :
  length (snd (JSON.lex_digits s acc n)) <= length s.
Proof.
  revert acc n. induction s as [|c s IH]; intros acc n; cbn; [lia|].
  destruct (JSON.is_digit c); cbn; [|lia].
  specialize (IH (10 * acc + JSON.digit_val c)%Z (n + 1)%Z). lia.
Qed.

Lemma lex_string_length (s : list ascii) (acc : list N) (str : list N)
    (r : list ascii) :
  JSON.lex_string s acc = Some (str, r) -> length r < length s.
Proof.
  revert acc. induction s as [s IH] using (induction_ltof1 _ (@length ascii)).
  unfold ltof in IH. intros acc H.
  destruct s as [|c s]; [discriminate|]. cbn in H.
  repeat case_match; simplify_eq/=; try lia;
    match goal with
    | H : JSON.lex_string _ _ = Some _ |- _ => apply IH in H; cbn in *; lia
    end.
Qed.

Lemma lex_int_length (s : list ascii) (i : Z) (r : list ascii) :
  JSON.lex_int s = Some (i, r) -> length r < length s.
Proof.
  unfold JSON.lex_int. destruct s as [|c s]; [discriminate|].
  destruct (Ascii.eqb c "0"); [intros [= <- <-]; cbn; lia|].
  destruct (JSON.is_digit c) eqn:Hc; [|discriminate].
  cbn. rewrite Hc.
  pose proof (lex_digits_length s (10 * 0 + JSON.digit_val c)%Z (0 + 1)%Z).
  destruct (JSON.lex_digits s _ _) as [[i' n'] r'].
  intros [= <- <-]. cbn in *. lia.
Qed.

Lemma lex_frac_length (s : list ascii) (f n : Z) (r : list ascii) :
  JSON.lex_frac s = Some (f, n, r) -> length r <= length s.
Proof.
  unfold JSON.lex_frac. destruct s as [|c s]; [intros [= <- <- <-]; done|].
  destruct (Ascii.eqb c "."); [|intros [= <- <- <-]; done].
  pose proof (lex_digits_length s 0 0).
  destruct (JSON.lex_digits s 0 0) as [[f' n'] r'].
  destruct (Z.eqb n' 0); [discriminate|].
  intros [= <- <- <-]. cbn in *. lia.
Qed.

Lemma lex_exp_length (s : list ascii) (e : Z) (r : list ascii) :
  JSON.lex_exp s = Some (e, r) -> length r <= length s.
Proof.
  unfold JSON.lex_exp. destruct s as [|c s]; [intros [= <- <-]; done|].
  destruct (Ascii.eqb c "e" || Ascii.eqb c "E"); [|intros [= <- <-]; done].
  assert (Hsign : forall sign rest1,
             (match s with
              | d :: rest1 =>
                if Ascii.eqb d "-" then ((-1)%Z, rest1)
                else if Ascii.eqb d "+" then (1%Z, rest1)
                else (1%Z, s)
              | [] => (1%Z, s)
              end) = (sign, rest1) -> length rest1 <= length s).
  { intros sign rest1. destruct s as [|d s']; [intros [= <- <-]; done|].
    repeat case_match; intros [= <- <-]; cbn; lia. }
  destruct (match s with [] => _ | _ => _ end) as [sign rest1].
  specialize (Hsign sign rest1 eq_refl).
  pose proof (lex_digits_length rest1 0 0).
  destruct (JSON.lex_digits rest1 0 0) as [[e' n'] r'].
  destruct (Z.eqb n' 0); [discriminate|].
  intros [= <- <-]. cbn in *. lia.
Qed.

Lemma lex_number_length (s : list ascii) (q : Q) (r : list ascii) :
  JSON.lex_number s = Some (q, r) -> length r < length s.
Proof.
  unfold JSON.lex_number.
  assert (Hsign : forall sign s1,
             (match s with
              | c :: rest => if Ascii.eqb c "-" then ((-1)%Z, rest) else (1%Z, s)
              | [] => (1%Z, s)
              end) = (sign, s1) -> length s1 <= length s).
  { intros sign s1. destruct s as [|c s']; [intros [= <- <-]; done|].
    case_match; intros [= <- <-]; cbn; lia. }
  destruct (match s with [] => _ | _ => _ end) as [sign s1].
  specialize (Hsign sign s1 eq_refl).
  destruct (JSON.lex_int s1) as [[i s2]|] eqn:Hi; [|discriminate].
  destruct (JSON.lex_frac s2) as [[[f n] s3]|] eqn:Hf; [|discriminate].
  destruct (JSON.lex_exp s3) as [[e s4]|] eqn:He; [|discriminate].
  intros [= <- <-].
  apply lex_int_length in Hi. apply lex_frac_length in Hf.
  apply lex_exp_length in He. lia.
Qed.

(** Lexing a text needs no more fuel than the text has characters. *)
Lemma lex_fuel (f1 f2 : nat) (s : list ascii) :
  length s < f1 -> length s < f2 -> JSON.lex f1 s = JSON.lex f2 s.
Proof.
  revert f2 s. induction f1 as [|f1 IH]; intros f2 s H1 H2; [lia|].
  destruct f2 as [|f2]; [lia|].
  destruct s as [|c s]; [reflexivity|]. cbn in H1, H2.
  cbn [JSON.lex].
  repeat case_match; simplify_eq/=; try reflexivity;
    try (rewrite (IH f2); [reflexivity|lia|lia]);
    try match goal with
        | H : JSON.lex_string _ _ = Some _ |- _ =>
          apply lex_string_length in H
        | H : JSON.lex_number _ = Some _ |- _ =>
          apply lex_number_length in H; cbn in H
        end;
    try (rewrite (IH f2); [reflexivity|lia|lia]).
Qed.

(** A successful parse consumes at least one token. *)
Lemma parse_consumes (f : nat) :
  (forall ts v r,
      JSON.parse_value f ts = Some (v, r) -> length r < length ts)
  /\ (forall ts acc v r,
         JSON.parse_elements f ts acc = Some (v, r) -> length r < length ts)
  /\ (forall ts acc v r,
         JSON.parse_members f ts acc = Some (v, r) -> length r < length ts).
Proof.
  induction f as [|f (IHv & IHe & IHm)]; [by repeat split|].
  repeat split.
  - intros ts v r H. cbn in H.
    repeat case_match; simplify_eq/=; try lia;
      (apply IHe in H || apply IHm in H); cbn in *; lia.
  - intros ts acc v r H. cbn in H.
    destruct (JSON.parse_value f ts) as [[v' r']|] eqn:Hv; [|done].
    apply IHv in Hv.
    repeat case_match; simplify_eq/=; try lia.
    apply IHe in H. cbn in *. lia.
  - intros ts acc v r H. cbn in H.
    repeat case_match; simplify_eq/=;
      match goal with
      | Hv : JSON.parse_value _ _ = Some _ |- _ => apply IHv in Hv
      end; cbn in *; try lia.
    apply IHm in H. cbn in *. lia.
Qed.

(** Parsing a token list needs no more fuel than twice its length. *)
Lemma parse_fuel (f1 f2 : nat) :
  (forall ts,
      2 * length ts < f1 -> 2 * length ts < f2 ->
      JSON.parse_value f1 ts = JSON.parse_value f2 ts)
  /\ (forall ts acc,
         2 * length ts + 1 < f1 -> 2 * length ts + 1 < f2 ->
         JSON.parse_elements f1 ts acc = JSON.parse_elements f2 ts acc)
  /\ (forall ts acc,
         2 * length ts + 1 < f1 -> 2 * length ts + 1 < f2 ->
         JSON.parse_members f1 ts acc = JSON.parse_members f2 ts acc).
Proof.
  revert f2. induction f1 as [|f1 IH]; intros f2;
    [repeat split; intros; lia|].
  destruct f2 as [|f2]; [repeat split; intros; lia|].
  destruct (IH f2) as (IHv & IHe & IHm).
  repeat split.
  - intros ts H1 H2. destruct ts as [|tk r]; [reflexivity|].
    cbn in H1, H2.
    destruct tk; try reflexivity; destruct r as [|tk' r'];
      try destruct tk'; try reflexivity;
      cbn; (apply IHe || apply IHm); cbn in *; lia.
  - intros ts acc H1 H2. cbn.
    rewrite (IHv ts) by lia.
    destruct (JSON.parse_value f2 ts) as [[v r]|] eqn:Hv; [|done].
    apply (parse_consumes f2) in Hv.
    destruct r as [|[] r']; try reflexivity.
    apply IHe; cbn in *; lia.
  - intros ts acc H1 H2. cbn.
    destruct ts as [|[] [|[] r]]; try reflexivity.
    cbn in H1, H2. rewrite (IHv r) by lia.
    destruct (JSON.parse_value f2 r) as [[v r']|] eqn:Hv; [|done].
    apply (parse_consumes f2) in Hv.
    destruct r' as [|[] r'']; try reflexivity.
    apply IHm; cbn in *; lia.
Qed.

(** There are no more tokens than characters. *)
Lemma lex_length (f : nat) (s : list ascii) (ts : list JSON.token) :
  JSON.lex f s = Some ts -> length ts <= length s.
Proof.
  revert s ts. induction f as [|f IH]; intros s ts H; [discriminate|].
  destruct s as [|c s]; [by injection H as <-|].
  cbn [JSON.lex] in H.
  repeat case_match; simplify_eq/=;
    try match goal with
        | H : JSON.lex_string _ _ = Some _ |- _ =>
          apply lex_string_length in H
        | H : JSON.lex_number _ = Some _ |- _ =>
          apply lex_number_length in H; cbn in H
        end;
    try (apply IH in H; cbn in *; lia);
    match goal with
    | H : _ <$> JSON.lex f ?r = Some _ |- _ =>
      destruct (JSON.lex f r) as [ts'|] eqn:Hts; simplify_eq/=;
      apply IH in Hts; cbn in *; lia
    end.
Qed.

(** [JSON.parse] does not depend on its fuel: more of it gives the same
    result, so a [None] is a text outside the grammar and never a parser
    that gave up. *)
Lemma parse_with_more_fuel (text : string) (f1 f2 : nat) :
  length (list_ascii_of_string text) < f1 ->
  2 * length (list_ascii_of_string text) < f2 ->
  JSON.parse_with f1 f2 text = JSON.parse text.
Proof.
  intros H1 H2. unfold JSON.parse, JSON.parse_with.
  set (cs := list_ascii_of_string text) in *.
  rewrite (lex_fuel f1 (S (length cs)) cs) by lia.
  destruct (JSON.lex (S (length cs)) cs) as [ts|] eqn:Hts; [|reflexivity].
  apply lex_length in Hts.
  rewrite (proj1 (parse_fuel f2 (S (2 * length cs))) ts);
    [reflexivity|lia|lia].
Qed.

(** ** Properties of [trim] *)

Lemma trimStart_whitespace_only (s : string) :
  whitespace_only s -> trimStart s = EmptyString.
Proof.
  unfold whitespace_only.
  induction s as [|c s IH]; intros H; [reflexivity|].
  cbn in H. apply Forall_cons in H as [Hc Hs].
  cbn. rewrite Hc. auto.
Qed.

Lemma trimStart_empty (s : string) :
  trimStart s = EmptyString -> whitespace_only s.
Proof.
  unfold whitespace_only.
  induction s as [|c s IH]; intros H; [constructor|].
  cbn in H. destruct (is_white_space c) eqn:Hc; [|discriminate].
  cbn. constructor; auto.
Qed.

Lemma trimStart_head (s : string) (c : ascii) (r : string) :
  trimStart s = String c r -> is_white_space c = false.
Proof.
  induction s as [|a s IH]; cbn; [discriminate|].
  destruct (is_white_space a) eqn:Ha; [assumption|].
  intros [= <- <-]. assumption.
Qed.

Lemma reverse_onto_empty (s acc : string) :
  reverse_onto s acc = EmptyString -> s = EmptyString /\ acc = EmptyString.
Proof.
  revert acc. induction s as [|c s IH]; intros acc H; [auto|].
  cbn in H. apply IH in H as [_ H]. discriminate.
Qed.

Lemma whitespace_only_reverse_onto (s acc : string) :
  whitespace_only (reverse_onto s acc) ->
  whitespace_only s /\ whitespace_only acc.
Proof.
  unfold whitespace_only. revert acc.
  induction s as [|c s IH]; intros acc H; cbn in *; [split; [constructor|done]|].
  apply IH in H as [Hs Hacc]. cbn in Hacc.
  apply Forall_cons in Hacc as [Hc Hacc].
  split; [constructor|]; done.
Qed.

(** The guard [!v?.trim()] fires exactly on the entries the specification
    calls missing. *)
Lemma blank_true_iff (v : option string) : blank v = true <-> missing v.
Proof.
  unfold missing. destruct v as [s|]; cbn; [|split; [intros _ ? [=]|done]].
  split.
  - intros H s' [= <-].
    unfold trim, trimEnd, reverse in H.
    destruct (reverse_onto _ _) eqn:E in H; [|discriminate].
    apply reverse_onto_empty in E as [E _].
    apply trimStart_empty, whitespace_only_reverse_onto in E as [E _].
    destruct (trimStart s) as [|c r] eqn:Hs; [by apply trimStart_empty|].
    apply trimStart_head in Hs. unfold whitespace_only in E. cbn in E.
    apply Forall_cons in E as [E _]. congruence.
  - intros H. specialize (H s eq_refl).
    unfold trim. by rewrite (trimStart_whitespace_only s H).
Qed.

(** ** The parser, the printer and [trim] on examples *)

Example trim_example :
  trim (String "009" "  Acme Corp " ++ String "010" EmptyString)
  = "Acme Corp".
Proof. reflexivity. Qed.

Example blank_example : blank (Some (String "009" "   ")) = true.
Proof. reflexivity. Qed.

Example parse_document :
  JSON.parse " [1, 2.50, -3e2, true, null, {}] "
  = Some (JSON.Array
            [ JSON.Number (inject_Z 1); JSON.Number (5 # 2);
              JSON.Number (inject_Z (-300)); JSON.Bool true; JSON.Null;
              JSON.Object [] ]).
Proof. vm_compute. reflexivity. Qed.

Example parse_rejects_trailing_comma : JSON.parse "[1,]" = None.
Proof. vm_compute. reflexivity. Qed.

Example parse_rejects_leading_zero : JSON.parse "01" = None.
Proof. vm_compute. reflexivity. Qed.

Example parse_rejects_empty_text : JSON.parse EmptyString = None.
Proof. vm_compute. reflexivity. Qed.

Example parse_null : JSON.parse "null" = Some JSON.Null.
Proof. vm_compute. reflexivity. Qed.

Example parse_escapes :
  JSON.parse (String JSON.dquote "a\n\u00e9\u4e2d" ++ String JSON.dquote EmptyString)
  = Some (JSON.Str [97; 10; 233; 20013]%N).
Proof. vm_compute. reflexivity. Qed.

Example parse_repeated_key :
  JSON.parse ("{" ++ String JSON.dquote "a" ++ String JSON.dquote ":1,"
              ++ String JSON.dquote "b" ++ String JSON.dquote ":2,"
              ++ String JSON.dquote "a" ++ String JSON.dquote ":3}")
  = Some (JSON.Object [ (JSON.units "a", JSON.Number (inject_Z 3));
                        (JSON.units "b", JSON.Number (inject_Z 2)) ]).
Proof. vm_compute. reflexivity. Qed.

Example print_escapes :
  Printer.print (JSON.Array [JSON.Str [97; 10; 233; 20013]%N;
                             JSON.Number (-5 # 4)])
  = "[" ++ String JSON.dquote "a\n" ++ String "233" "\u4e2d"
    ++ String JSON.dquote ",-1.25]".
Proof. vm_compute. reflexivity. Qed.

(** What the printer writes for a record, the parser reads back. *)
Example printed_record_reads_back :
  JSON.parse (Printer.stringify (Script.record_with score_object))
  = Some (Printer.document (Script.record_with score_object)).
Proof. vm_compute. reflexivity. Qed.

(** The end-to-end scenario of the specification: every call succeeds and
    the key of the returned identifier holds the record with the parsed
    critique. *)
Example end_to_end :
  ending 1 (Script.log_of Script.happy) = [Ev_navigate "/resume/3f2a"]
  /\ kv_get (kv_after ∅ (Script.log_of Script.happy)) "resume:3f2a"
     = Some (Printer.stringify (Script.record_with score_object)).
Proof.
  split; [reflexivity|].
  unfold kv_get. cbn. apply lookup_insert_eq.
Qed.

Example end_to_end_parts :
  Script.log_of Script.happy_parts
  = <[11%nat :=
        Ev_ai_feedback "/resume.pdf"
          (Script.instructions "Engineer" "Build things")
          (Script.answer
             (AIResponse.ContentParts
                [{| AIResponse.text := score_text |}]))]>
      (Script.log_of Script.happy).
Proof. reflexivity. Qed.

(** A valid submission runs the analysis on the entries of the form. *)
Example submit_valid :
  log (snd (Script.submit
              (Script.form (Some "Acme") (Some "Engineer")
                 (Some "Build things"))
              Script.happy (Some Script.resume_pdf)))
  = Ev_preventDefault :: Script.log_of Script.happy.
Proof. reflexivity. Qed.

Example submit_text_file :
  log (snd (Script.submit
              (Script.form (Some "Acme") (Some "Engineer")
                 (Some "Build things"))
              Script.happy (Some Script.notes_txt)))
  = [Ev_preventDefault; Ev_alert "Please upload a PDF file"].
Proof. reflexivity. Qed.

(** ** Running the handlers symbolically *)

(** One answer of the outside world: case analysis on what the next call
    returns. *)
Ltac answer :=
  match goal with
  | |- context [svc_fs_upload ?p ?f ?w] =>
    destruct (svc_fs_upload p f w) as [[[?|]|?] ?] eqn:?
  | |- context [svc_convertPdfToImage ?p ?f ?w] =>
    destruct (svc_convertPdfToImage p f w) as [[[? [?|] ?]|?] ?] eqn:?
  | |- context [svc_generateUUID ?p ?w] =>
    destruct (svc_generateUUID p w) as [? ?] eqn:?
  | |- context [svc_kv_set ?p ?k ?v ?w] =>
    destruct (svc_kv_set p k v w) as [[?|?] ?] eqn:?
  | |- context [svc_ai_feedback ?p ?a ?b ?w] =>
    destruct (svc_ai_feedback p a b w) as [[[[[[?|[|[?] ?]]]]|]|?] ?] eqn:?
  | |- context [JSON.parse ?t] =>
    destruct (JSON.parse t) eqn:?
  end; cbn.

Ltac run_analyze :=
  cbv zeta;
  match goal with
  | |- context [handleAnalyze ?p ?s ?i ?c ?t ?d ?f ?st] =>
    let run := fresh "run" in
    let E := fresh "E" in
    remember (handleAnalyze p s i c t d f st) as run eqn:E; revert E;
    unfold handleAnalyze, try_catch, bind, fs_upload, convertPdfToImage,
      kv_set, ai_feedback, generateUUID, await, feedbackText, JSON_parse,
      critique;
    cbn; repeat answer; intros ->; cbn
  end.

(** Membership in an explicit log, as a hypothesis and as a goal. *)
Ltac elems :=
  repeat match goal with
  | H : _ ∈ [] |- _ => by apply elem_of_nil in H
  | H : _ ∈ _ :: _ |- _ =>
    apply elem_of_cons in H; destruct H as [H|H];
    [try discriminate H; simplify_eq/=|]
  end.

Ltac member := by repeat constructor.

(** The shape of the service calls on one path of [handleAnalyze]. *)
Ltac service_calls :=
  cbn;
  first
    [ by eapply stops_at_upload
    | by eapply stops_at_rasterization
    | by eapply stops_at_image_upload
    | by eapply stops_at_provisional_write
    | by eapply stops_at_feedback
    | by eapply stops_at_critique
    | by eapply runs_to_the_end ].

Lemma parse_score_text : JSON.parse score_text = Some score_object.
Proof. vm_compute. reflexivity. Qed.

Section Claims.

Context {W : Type}.
Variable puter : Services W.
Variable JSON_stringify : Data.t -> string.
Variable prepareInstructions : string -> string -> string.

Local Abbreviation analyze := (handleAnalyze puter JSON_stringify prepareInstructions).
Local Abbreviation submit := (handleSubmit puter JSON_stringify prepareInstructions).

(** C1. A submission in which the company name, the job title or the job
    description is absent, empty or white space only, or in which no file
    is selected, or whose file is not of type [application/pdf], makes
    [handleSubmit] show one validation message and return: apart from
    cancelling the form's default action and that alert it does nothing, so
    the Blob Store, the Rasterizer, the Feedback Generator and the KV Store
    are not called and the world is as it was. *)
Theorem validation_gate (e : FormEvent.t) (st : State W) :
  invalid_submission e st ->
  exists msg,
    msg ∈ validation_messages
    /\ submit e (clear_log st)
       = (Normal tt,
          {| world := world st; isProcessing := isProcessing st;
             statusText := statusText st; file := file st;
             log := [Ev_preventDefault; Ev_alert msg] |})
    /\ calls is_service_call (log (snd (submit e (clear_log st)))) = [].
Proof.
  intros Hinv. unfold handleSubmit, bind, preventDefault, alert, emit, get_file.
  cbn.
  destruct (blank (FormEvent.currentTarget e "company-name")) eqn:B1;
    [eexists; split; [|split; reflexivity]; member|].
  destruct (blank (FormEvent.currentTarget e "job-title")) eqn:B2;
    [eexists; split; [|split; reflexivity]; member|].
  destruct (blank (FormEvent.currentTarget e "job-description")) eqn:B3;
    [eexists; split; [|split; reflexivity]; member|].
  cbn. destruct (file st) as [f|] eqn:Hf;
    [|eexists; split; [|split; reflexivity]; member].
  destruct (String.eqb (File.type f) "application/pdf") eqn:Ht; cbn;
    [|eexists; split; [|split; reflexivity]; member].
  exfalso. destruct Hinv as [H|[H|[H|[H|(f' & H & Hne)]]]].
  - apply blank_true_iff in H. congruence.
  - apply blank_true_iff in H. congruence.
  - apply blank_true_iff in H. congruence.
  - congruence.
  - apply String.eqb_eq in Ht. congruence.
Qed.

(** The other side of the validation gate: a submission with three entries
    that are not blank and a selected PDF file runs the analysis on them. *)
Lemma valid_submission_is_analyzed (e : FormEvent.t) (st : State W)
    (companyName jobTitle jobDescription : string) (f : File.t) :
  FormEvent.currentTarget e "company-name" = Some companyName ->
  FormEvent.currentTarget e "job-title" = Some jobTitle ->
  FormEvent.currentTarget e "job-description" = Some jobDescription ->
  ~ whitespace_only companyName ->
  ~ whitespace_only jobTitle ->
  ~ whitespace_only jobDescription ->
  file st = Some f ->
  File.type f = "application/pdf" ->
  handleSubmit puter JSON_stringify prepareInstructions e (clear_log st)
  = handleAnalyze puter JSON_stringify prepareInstructions
      companyName jobTitle jobDescription f
      {| world := world st; isProcessing := isProcessing st;
         statusText := statusText st; file := file st;
         log := [Ev_preventDefault] |}.
Proof.
  intros Hc Ht Hd Hnc Hnt Hnd Hf Hpdf.
  assert (Hblank : forall s, ~ whitespace_only s -> blank (Some s) = false).
  { intros s Hs. destruct (blank (Some s)) eqn:Hb; [|reflexivity].
    apply blank_true_iff in Hb. destruct Hs. by apply Hb. }
  unfold handleSubmit, bind, preventDefault, emit, get_file. cbn.
  rewrite Hc, Ht, Hd, !Hblank by assumption. cbn.
  rewrite Hf, Hpdf. reflexivity.
Qed.

(** C2. When the Blob Store answers the upload of the original file with
    nothing, [handleAnalyze] sets the status to "Error: Failed to upload
    file", resets the processing flag and returns; the only call it has made
    is that upload: no rasterization, no second upload, no KV Store write
    and no feedback request. *)
Theorem fail_fast_on_upload (c t d : string) (f : File.t) (st : State W) :
  fst (svc_fs_upload puter f (world st)) = Fulfilled None ->
  let run := analyze c t d f (clear_log st) in
  fst run = Normal tt
  /\ log (snd run)
     = [ Ev_setIsProcessing true;
         Ev_setStatusText "Uploading the file...";
         Ev_fs_upload f (Fulfilled None);
         Ev_setStatusText "Error: Failed to upload file";
         Ev_setIsProcessing false ]
  /\ statusText (snd run) = "Error: Failed to upload file"
  /\ isProcessing (snd run) = false
  /\ calls is_service_call (log (snd run)) = [Ev_fs_upload f (Fulfilled None)]
  /\ calls is_convertPdfToImage (log (snd run)) = []
  /\ calls is_kv_set (log (snd run)) = []
  /\ calls is_ai_feedback (log (snd run)) = [].
Proof.
  run_analyze; intros [=]. repeat split.
Qed.

(** When the feedback arrives and its critique text parses, the run writes
    twice under the key of its identifier: the record without feedback, then
    the same record with the parsed critique. *)
Lemma writes_of_parsed_critique (c t d : string) (f : File.t) (st : State W)
    (p i : string) (fb : AIResponse.t) (text : string) (v : JSON.value) :
  let l := log (snd (analyze c t d f (clear_log st))) in
  Ev_ai_feedback p i (Fulfilled (Some fb)) ∈ l ->
  critique fb text ->
  JSON.parse text = Some v ->
  exists uuid uf ui r1 r2,
    calls is_kv_set l
    = [ Ev_kv_set ("resume:" ++ uuid)
          (JSON_stringify (record uuid uf ui c t d JSON.Null)) r1;
        Ev_kv_set ("resume:" ++ uuid)
          (JSON_stringify (record uuid uf ui c t d v)) r2 ].
Proof.
  run_analyze; intros Hin Hc Hp; elems; cbn in *.
  all: try (destruct Hc as (? & [= <-] & ->)); simplify_eq/=.
  all: try (eexists _, _, _, _, _; reflexivity).
Qed.


(** C3. Critique extraction. When the Feedback Generator answers with a
    plain string, that string is parsed as JSON and the document becomes the
    feedback of the record of the final write; when it answers with a
    sequence of parts, the text of the first part is used instead. In
    particular the string [{"score":80}] and the one-element sequence
    holding that text both store the object with the single property
    [score] of value 80. *)
Theorem critique_extraction (c t d : string) (f : File.t) (st : State W)
    (p i : string) (fb : AIResponse.t) :
  let l := log (snd (analyze c t d f (clear_log st))) in
  let stored v :=
    exists uuid uf ui r1 r2,
      calls is_kv_set l
      = [ Ev_kv_set ("resume:" ++ uuid)
            (JSON_stringify (record uuid uf ui c t d JSON.Null)) r1;
          Ev_kv_set ("resume:" ++ uuid)
            (JSON_stringify (record uuid uf ui c t d v)) r2 ] in
  Ev_ai_feedback p i (Fulfilled (Some fb)) ∈ l ->
  (forall s v,
      AIResponse.content (AIResponse.message fb) = AIResponse.ContentString s ->
      JSON.parse s = Some v -> stored v)
  /\ (forall part parts v,
         AIResponse.content (AIResponse.message fb)
         = AIResponse.ContentParts (part :: parts) ->
         JSON.parse (AIResponse.text part) = Some v -> stored v)
  /\ (AIResponse.content (AIResponse.message fb)
      = AIResponse.ContentString score_text -> stored score_object)
  /\ (AIResponse.content (AIResponse.message fb)
      = AIResponse.ContentParts [{| AIResponse.text := score_text |}] ->
      stored score_object).
Proof.
  intros l stored Hin.
  assert (Hgen : forall text v,
             critique fb text -> JSON.parse text = Some v -> stored v)
    by (intros text v Hc Hp;
        exact (writes_of_parsed_critique c t d f st p i fb text v Hin Hc Hp)).
  unfold critique in Hgen. repeat split.
  - intros s v Hs. apply Hgen. by rewrite Hs.
  - intros part parts v Hs. apply Hgen. rewrite Hs. by exists part.
  - intros Hs. apply Hgen with score_text; [by rewrite Hs|].
    apply parse_score_text.
  - intros Hs. apply Hgen with score_text; [rewrite Hs; by eexists|].
    apply parse_score_text.
Qed.

(** C4. Partial durability. When the provisional write succeeded and the
    Feedback Generator then answers with nothing, that write is the only
    one of the run, and whatever the store held before, reading the key
    ["resume:" + id] afterwards gives the record with the run's identifier,
    the two paths the Blob Store returned and the three texts of the form,
    and with a null feedback. *)
Theorem partial_durability (c t d : string) (f : File.t) (st : State W)
    (store : gmap string string) (key value p i : string) :
  let l := log (snd (analyze c t d f (clear_log st))) in
  Ev_kv_set key value (Fulfilled true) ∈ l ->
  Ev_ai_feedback p i (Fulfilled None) ∈ l ->
  exists uuid uf ui,
    key = "resume:" ++ uuid
    /\ value = JSON_stringify (record uuid uf ui c t d JSON.Null)
    /\ Ev_generateUUID uuid ∈ l
    /\ calls is_kv_set l = [Ev_kv_set key value (Fulfilled true)]
    /\ kv_get (kv_after store l) ("resume:" ++ uuid)
       = Some (JSON_stringify (record uuid uf ui c t d JSON.Null))
    /\ statusText (snd (analyze c t d f (clear_log st)))
       = "Error: Failed to analyze resume".
Proof.
  run_analyze; intros Hw Hf; elems.
  eexists _, _, _. repeat split; try reflexivity; try member.
  unfold kv_get. cbn. apply lookup_insert_eq.
Qed.

(** C5, as amended. After a run that reaches the navigation, the KV Store
    was written exactly twice, under the same key, with records that agree
    on [id], [resumePath], [imagePath], [companyName], [jobTitle] and
    [jobDescription]; the feedback is null in the first and, in the second,
    the document parsed from the critique text (which is null again when
    that text is the JSON literal null). *)
Theorem monotonic_record_construction (c t d : string) (f : File.t)
    (st : State W) (to : string) :
  let l := log (snd (analyze c t d f (clear_log st))) in
  Ev_navigate to ∈ l ->
  exists uuid uf ui p i fb text v r1 r2,
    calls is_kv_set l
    = [ Ev_kv_set ("resume:" ++ uuid)
          (JSON_stringify (record uuid uf ui c t d JSON.Null)) r1;
        Ev_kv_set ("resume:" ++ uuid)
          (JSON_stringify (record uuid uf ui c t d v)) r2 ]
    /\ Ev_ai_feedback p i (Fulfilled (Some fb)) ∈ l
    /\ critique fb text
    /\ JSON.parse text = Some v
    /\ to = "/resume/" ++ uuid.
Proof.
  run_analyze; intros Hn; elems.
  all: eexists _, _, _, _, _, _, _, _, _, _.
  all: split; [reflexivity|]; split; [member|]; cbn.
  all: split; [|split; [eassumption|reflexivity]]; eauto.
Qed.

(** C6, as amended. In every run the calls to the services are made in
    the order: upload of the original file, rasterization of that file,
    upload of the image the rasterizer returned, provisional write,
    feedback request on the path of the uploaded original, final write
    under the key of the provisional one. The first call is always made,
    each later one only after the one before it succeeded, and a step that
    fails is the last call of the run. After a feedback whose critique
    yields no document the final write is not made. A run that navigates
    has made all six. *)
Theorem pipeline_order (c t d : string) (f : File.t) (st : State W) :
  let l := log (snd (analyze c t d f (clear_log st))) in
  pipeline_calls f (prepareInstructions t d) (calls is_service_call l)
  /\ (forall e,
         e ∈ calls is_service_call l -> failed e = true ->
         last (calls is_service_call l) = Some e)
  /\ exists img key path,
       let pipeline :=
         [ UploadStep f; RasterizeStep f; UploadStep img;
           PersistStep key; FeedbackStep path; PersistStep key ] in
       steps l `prefix_of` pipeline
       /\ (steps l = pipeline \/ calls is_navigate l = []).
Proof.
  run_analyze.
  all: split; [service_calls|].
  all: split; [intros ev Hin Hf; elems; done|].
  all: try (exists f, EmptyString, EmptyString;
            split; [by eexists|by right]).
  all: try (eexists _, EmptyString, EmptyString;
            split; [by eexists|by right]).
  all: try (eexists _, _, EmptyString;
            split; [by eexists|by right]).
  all: try (eexists _, _, _; split; [by eexists|by right]).
  all: try (eexists _, _, _; split; [by eexists|by left]).
Qed.

(** C7, as amended. When the provisional write rejects, the top-level guard
    logs the error, sets the status to "Error: Something went wrong during
    analysis", resets the processing flag and the handler returns normally,
    with no feedback request and no further write. When it fulfils, the
    value it returns is not looked at: the feedback request follows. *)
Theorem provisional_write_outcome (c t d : string) (f : File.t)
    (st : State W) (key value : string) (r : Settled bool)
    (rest : list Event) :
  let run := analyze c t d f (clear_log st) in
  calls is_kv_set (log (snd run)) = Ev_kv_set key value r :: rest ->
  match r with
  | Rejected e =>
    fst run = Normal tt
    /\ statusText (snd run) = "Error: Something went wrong during analysis"
    /\ isProcessing (snd run) = false
    /\ Ev_console_error e ∈ log (snd run)
    /\ rest = []
    /\ calls is_ai_feedback (log (snd run)) = []
  | Fulfilled b =>
    exists p i a,
      calls is_ai_feedback (log (snd run)) = [Ev_ai_feedback p i a]
  end.
Proof.
  run_analyze; intros [=]; subst; cbn.
  all: try (repeat split; member).
  all: by eexists _, _, _.
Qed.

(** C8. When the critique text is not valid JSON, the [SyntaxError] reaches
    the top-level guard: it is logged, the status becomes "Error: Something
    went wrong during analysis", the processing flag is reset, and the
    handler returns normally; the provisional write stays the only write and
    nothing is navigated to. *)
Theorem malformed_critique (c t d : string) (f : File.t) (st : State W)
    (p i : string) (fb : AIResponse.t) (text : string) :
  let run := analyze c t d f (clear_log st) in
  Ev_ai_feedback p i (Fulfilled (Some fb)) ∈ log (snd run) ->
  critique fb text ->
  JSON.parse text = None ->
  fst run = Normal tt
  /\ statusText (snd run) = "Error: Something went wrong during analysis"
  /\ isProcessing (snd run) = false
  /\ Ev_console_error SyntaxError ∈ log (snd run)
  /\ (exists key value r,
         calls is_kv_set (log (snd run)) = [Ev_kv_set key value r])
  /\ calls is_navigate (log (snd run)) = [].
Proof.
  run_analyze; intros Hin Hc Hp; elems; cbn in *.
  all: try (destruct Hc as (? & [= <-] & ->)); simplify_eq/=.
  all: repeat split; try member; by eexists _, _, _.
Qed.

(** C9. Every value written to the KV Store is the serialization of a
    [record] whose [resumePath] and [imagePath] are the paths the Blob Store
    returned for the original file and for the rasterized image, both
    uploads having succeeded in that run; paths are strings, never null.
    This holds whatever the feedback of the record, so no feedback is ever
    attached to a record without its two document references. *)
Theorem feedback_needs_documents (c t d : string) (f : File.t)
    (st : State W) (key value : string) (r : Settled bool) :
  let l := log (snd (analyze c t d f (clear_log st))) in
  Ev_kv_set key value r ∈ l ->
  exists uuid uf img ui v,
    key = "resume:" ++ uuid
    /\ value = JSON_stringify (record uuid uf ui c t d v)
    /\ calls is_fs_upload l
       = [ Ev_fs_upload f (Fulfilled (Some uf));
           Ev_fs_upload img (Fulfilled (Some ui)) ].
Proof.
  run_analyze; intros Hin; elems.
  all: by eexists _, _, _, _, _.
Qed.

(** C10. [handleAnalyze] always returns normally and leaves the selected
    file alone, and a run ends in one of two ways. Either it ends with the
    navigation, and then it never reset the processing flag, which is still
    set; or it does not navigate, and then its last two actions were to set
    the status to one of the five error messages and to reset the
    processing flag, so that the status keeps the message, the form is
    rendered again and its button is enabled whenever a file is selected.
    Every failure takes the second way: whenever an upload returns no item,
    the rasterizer returns no file, the feedback request returns nothing,
    any call rejects, or the [catch] block runs for any other error, the
    run ends with an error status followed by the reset of the flag. The
    first way is taken only by a run in which nothing failed and all six
    calls were made. The calls themselves are those of [pipeline_calls]:
    the upload of the original is always attempted, so a service that fails
    is always noticed. *)
Theorem processing_flag (c t d : string) (f : File.t) (st : State W) :
  let run := analyze c t d f (clear_log st) in
  let l := log (snd run) in
  fst run = Normal tt
  /\ file (snd run) = file st
  /\ ((exists to,
          ending 1 l = [Ev_navigate to]
          /\ calls is_navigate l = [Ev_navigate to]
          /\ (Ev_setIsProcessing false ∉ l)
          /\ isProcessing (snd run) = true)
      \/ (exists msg,
             msg ∈ error_messages
             /\ ending 2 l = [Ev_setStatusText msg; Ev_setIsProcessing false]
             /\ calls is_navigate l = []
             /\ statusText (snd run) = msg
             /\ isProcessing (snd run) = false
             /\ form_rendered (snd run) = true
             /\ submit_disabled (snd run)
                = negb (bool_decide (is_Some (file st)))))
  /\ (forall e,
         e ∈ l -> failure e = true ->
         ending 2 l
         = [Ev_setStatusText (statusText (snd run)); Ev_setIsProcessing false]
         /\ statusText (snd run) ∈ error_messages
         /\ isProcessing (snd run) = false
         /\ form_rendered (snd run) = true
         /\ submit_disabled (snd run)
            = negb (bool_decide (is_Some (file st)))
         /\ calls is_navigate l = [])
  /\ (forall to,
         Ev_navigate to ∈ l ->
         Forall (fun e => failure e = false) l
         /\ length (calls is_service_call l) = 6
         /\ (Ev_setIsProcessing false ∉ l)
         /\ isProcessing (snd run) = true)
  /\ pipeline_calls f (prepareInstructions t d) (calls is_service_call l).
Proof.
  run_analyze.
  all: split; [reflexivity|]; split; [reflexivity|].
  all: split;
    [ first
        [ right; eexists; split; [member|];
          repeat split; apply orb_false_r
        | left; eexists; repeat split; intros Hin; elems ] |].
  all: split;
    [ intros ev Hin Hf; elems;
      repeat split; first [member | apply orb_false_r] |].
  all: split; [|service_calls].
  all: intros to Hin; elems.
  all: split; [by repeat constructor|].
  all: repeat split; intros Hin; elems.
Qed.

End Claims.

(** ** The claims at work on scripted runs *)

Lemma validation_gate_witness :
  invalid_submission
    (Script.form (Some "Acme") (Some "   ") (Some "Build things"))
    (Script.mounted Script.happy (Some Script.resume_pdf))
  /\ exists msg,
       log (snd (Script.submit
                   (Script.form (Some "Acme") (Some "   ")
                      (Some "Build things"))
                   Script.happy (Some Script.resume_pdf)))
       = [Ev_preventDefault; Ev_alert msg].
Proof.
  assert (H : invalid_submission
                (Script.form (Some "Acme") (Some "   ") (Some "Build things"))
                (Script.mounted Script.happy (Some Script.resume_pdf))).
  { right; left. intros s [= <-]. repeat constructor. }
  split; [exact H|].
  destruct (validation_gate Script.services Printer.stringify
              Script.instructions _ _ H) as (msg & _ & Hrun & _).
  exists msg. exact (f_equal (fun r => log (snd r)) Hrun).
Defined.

Lemma fail_fast_on_upload_witness :
  fst (svc_fs_upload Script.services Script.resume_pdf Script.blob_store_down)
  = Fulfilled None
  /\ Script.log_of Script.blob_store_down
     = [ Ev_setIsProcessing true;
         Ev_setStatusText "Uploading the file...";
         Ev_fs_upload Script.resume_pdf (Fulfilled None);
         Ev_setStatusText "Error: Failed to upload file";
         Ev_setIsProcessing false ].
Proof.
  split; [reflexivity|].
  apply (fail_fast_on_upload Script.services Printer.stringify
           Script.instructions "Acme" "Engineer" "Build things"
           Script.resume_pdf
           (Script.mounted Script.blob_store_down (Some Script.resume_pdf))).
  reflexivity.
Defined.

Lemma critique_extraction_witness :
  Ev_ai_feedback "/resume.pdf"
    (Script.instructions "Engineer" "Build things")
    (Script.answer (AIResponse.ContentString score_text))
  ∈ Script.log_of Script.happy
  /\ exists uuid uf ui r1 r2,
       calls is_kv_set (Script.log_of Script.happy)
       = [ Ev_kv_set ("resume:" ++ uuid)
             (Printer.stringify
                (record uuid uf ui "Acme" "Engineer" "Build things"
                   JSON.Null)) r1;
           Ev_kv_set ("resume:" ++ uuid)
             (Printer.stringify
                (record uuid uf ui "Acme" "Engineer" "Build things"
                   score_object)) r2 ].
Proof.
  assert (H : Ev_ai_feedback "/resume.pdf"
                (Script.instructions "Engineer" "Build things")
                (Script.answer (AIResponse.ContentString score_text))
              ∈ Script.log_of Script.happy)
    by (vm_compute; member).
  split; [exact H|].
  destruct (critique_extraction Script.services Printer.stringify
              Script.instructions "Acme" "Engineer" "Build things"
              Script.resume_pdf
              (Script.mounted Script.happy (Some Script.resume_pdf))
              _ _ _ H) as (_ & _ & Hstored & _).
  exact (Hstored eq_refl).
Defined.

Lemma partial_durability_witness :
  Ev_kv_set "resume:3f2a" (Printer.stringify (Script.record_with JSON.Null))
    (Fulfilled true)
  ∈ Script.log_of Script.feedback_down
  /\ Ev_ai_feedback "/resume.pdf"
       (Script.instructions "Engineer" "Build things") (Fulfilled None)
     ∈ Script.log_of Script.feedback_down
  /\ exists uuid uf ui,
       kv_get (kv_after ∅ (Script.log_of Script.feedback_down))
         ("resume:" ++ uuid)
       = Some (Printer.stringify
                 (record uuid uf ui "Acme" "Engineer" "Build things"
                    JSON.Null)).
Proof.
  assert (Hw : Ev_kv_set "resume:3f2a"
                 (Printer.stringify (Script.record_with JSON.Null))
                 (Fulfilled true)
               ∈ Script.log_of Script.feedback_down)
    by (vm_compute; member).
  assert (Hf : Ev_ai_feedback "/resume.pdf"
                 (Script.instructions "Engineer" "Build things")
                 (Fulfilled None)
               ∈ Script.log_of Script.feedback_down)
    by (vm_compute; member).
  split; [exact Hw|]. split; [exact Hf|].
  destruct (partial_durability Script.services Printer.stringify
              Script.instructions "Acme" "Engineer" "Build things"
              Script.resume_pdf
              (Script.mounted Script.feedback_down (Some Script.resume_pdf))
              ∅ _ _ _ _ Hw Hf)
    as (uuid & uf & ui & _ & _ & _ & _ & Hget & _).
  exists uuid, uf, ui. exact Hget.
Defined.

Lemma monotonic_record_construction_witness :
  Ev_navigate "/resume/3f2a" ∈ Script.log_of Script.happy
  /\ exists uuid uf ui v r1 r2,
       calls is_kv_set (Script.log_of Script.happy)
       = [ Ev_kv_set ("resume:" ++ uuid)
             (Printer.stringify
                (record uuid uf ui "Acme" "Engineer" "Build things"
                   JSON.Null)) r1;
           Ev_kv_set ("resume:" ++ uuid)
             (Printer.stringify
                (record uuid uf ui "Acme" "Engineer" "Build things" v)) r2 ].
Proof.
  assert (H : Ev_navigate "/resume/3f2a" ∈ Script.log_of Script.happy)
    by (vm_compute; member).
  split; [exact H|].
  destruct (monotonic_record_construction Script.services Printer.stringify
              Script.instructions "Acme" "Engineer" "Build things"
              Script.resume_pdf
              (Script.mounted Script.happy (Some Script.resume_pdf)) _ H)
    as (uuid & uf & ui & _ & _ & _ & _ & v & r1 & r2 & Hw & _).
  exists uuid, uf, ui, v, r1, r2. exact Hw.
Defined.

(** C5, as stated, fails: the critique [null] is valid JSON, the run
    navigates, and both writes store the same text, whose feedback is
    null. *)
Lemma monotonic_record_construction_counterexample :
  Ev_navigate "/resume/3f2a" ∈ Script.log_of Script.null_critique
  /\ exists text,
       calls is_kv_set (Script.log_of Script.null_critique)
       = [ Ev_kv_set "resume:3f2a" text (Fulfilled true);
           Ev_kv_set "resume:3f2a" text (Fulfilled true) ]
       /\ text = Printer.stringify (Script.record_with JSON.Null)
       /\ JSON.parse text
          = Some (Printer.document (Script.record_with JSON.Null)).
Proof.
  split; [vm_compute; member|].
  eexists. split; [reflexivity|]. split; [reflexivity|].
  vm_compute. reflexivity.
Qed.

(** C6, as stated, fails: in a run where everything succeeds the original
    file is uploaded before it is rasterized. *)
Lemma pipeline_order_counterexample :
  ~ occurs_before is_rasterize_step is_upload_step
      (steps (Script.log_of Script.happy)).
Proof.
  intros H.
  specialize (H 1%nat 0%nat (RasterizeStep Script.resume_pdf)
                (UploadStep Script.resume_pdf)
                eq_refl eq_refl eq_refl eq_refl).
  lia.
Qed.

Lemma provisional_write_outcome_witness :
  calls is_kv_set (Script.log_of Script.kv_rejecting)
  = [ Ev_kv_set "resume:3f2a"
        (Printer.stringify (Script.record_with JSON.Null))
        (Rejected (ServiceError "quota exceeded")) ]
  /\ statusText (snd (Script.analyze Script.kv_rejecting))
     = "Error: Something went wrong during analysis"
  /\ calls is_ai_feedback (Script.log_of Script.kv_rejecting) = [].
Proof.
  assert (H : calls is_kv_set (Script.log_of Script.kv_rejecting)
              = [ Ev_kv_set "resume:3f2a"
                    (Printer.stringify (Script.record_with JSON.Null))
                    (Rejected (ServiceError "quota exceeded")) ])
    by reflexivity.
  split; [exact H|].
  destruct (provisional_write_outcome Script.services Printer.stringify
              Script.instructions "Acme" "Engineer" "Build things"
              Script.resume_pdf
              (Script.mounted Script.kv_rejecting (Some Script.resume_pdf))
              _ _ _ _ H)
    as (_ & Hstatus & _ & _ & _ & Hnone).
  split; [exact Hstatus|exact Hnone].
Defined.

(** C7, as stated, fails: the provisional write answers [false], no error
    is reported, and the run goes on to the navigation. *)
Lemma provisional_write_outcome_counterexample :
  head (calls is_kv_set (Script.log_of Script.kv_refusing))
  = Some (Ev_kv_set "resume:3f2a"
            (Printer.stringify (Script.record_with JSON.Null))
            (Fulfilled false))
  /\ ~ reports_error (Script.log_of Script.kv_refusing)
  /\ statusText (snd (Script.analyze Script.kv_refusing))
     = "Analysis complete, redirecting..."
  /\ Ev_navigate "/resume/3f2a" ∈ Script.log_of Script.kv_refusing.
Proof.
  split; [reflexivity|]. split; [|split; [reflexivity|vm_compute; member]].
  intros [(s & Hin & Hs)|(msg & Hin)];
    (let l := eval vm_compute in (Script.log_of Script.kv_refusing) in
     change (Script.log_of Script.kv_refusing) with l in Hin).
  - unfold error_messages in Hs. elems.
  - elems.
Qed.

Lemma malformed_critique_witness :
  Ev_ai_feedback "/resume.pdf"
    (Script.instructions "Engineer" "Build things")
    (Script.answer
       (AIResponse.ContentString "Here is my feedback: good resume"))
  ∈ Script.log_of Script.prose_critique
  /\ JSON.parse "Here is my feedback: good resume" = None
  /\ statusText (snd (Script.analyze Script.prose_critique))
     = "Error: Something went wrong during analysis"
  /\ calls is_navigate (Script.log_of Script.prose_critique) = [].
Proof.
  assert (H : Ev_ai_feedback "/resume.pdf"
                (Script.instructions "Engineer" "Build things")
                (Script.answer
                   (AIResponse.ContentString
                      "Here is my feedback: good resume"))
              ∈ Script.log_of Script.prose_critique)
    by (vm_compute; member).
  assert (Hp : JSON.parse "Here is my feedback: good resume" = None)
    by (vm_compute; reflexivity).
  split; [exact H|]. split; [exact Hp|].
  destruct (malformed_critique Script.services Printer.stringify
              Script.instructions "Acme" "Engineer" "Build things"
              Script.resume_pdf
              (Script.mounted Script.prose_critique (Some Script.resume_pdf))
              _ _ _ "Here is my feedback: good resume" H eq_refl Hp)
    as (_ & Hstatus & _ & _ & _ & Hnav).
  split; [exact Hstatus|exact Hnav].
Defined.

Lemma feedback_needs_documents_witness :
  Ev_kv_set "resume:3f2a" (Printer.stringify (Script.record_with score_object))
    (Fulfilled true)
  ∈ Script.log_of Script.happy
  /\ exists img uf ui,
       calls is_fs_upload (Script.log_of Script.happy)
       = [ Ev_fs_upload Script.resume_pdf (Fulfilled (Some uf));
           Ev_fs_upload img (Fulfilled (Some ui)) ].
Proof.
  assert (H : Ev_kv_set "resume:3f2a"
                (Printer.stringify (Script.record_with score_object))
                (Fulfilled true)
              ∈ Script.log_of Script.happy)
    by (vm_compute; member).
  split; [exact H|].
  destruct (feedback_needs_documents Script.services Printer.stringify
              Script.instructions "Acme" "Engineer" "Build things"
              Script.resume_pdf
              (Script.mounted Script.happy (Some Script.resume_pdf))
              _ _ _ H)
    as (uuid & uf & img & ui & v & _ & _ & Hup).
  exists img, uf, ui. exact Hup.
Defined.

Lemma processing_flag_witness :
  Ev_fs_upload Script.resume_pdf (Fulfilled None)
  ∈ Script.log_of Script.blob_store_down
  /\ failure (Ev_fs_upload Script.resume_pdf (Fulfilled None)) = true
  /\ isProcessing (snd (Script.analyze Script.blob_store_down)) = false
  /\ statusText (snd (Script.analyze Script.blob_store_down))
     ∈ error_messages.
Proof.
  assert (H : Ev_fs_upload Script.resume_pdf (Fulfilled None)
              ∈ Script.log_of Script.blob_store_down)
    by (vm_compute; member).
  split; [exact H|]. split; [reflexivity|].
  destruct (processing_flag Script.services Printer.stringify
              Script.instructions "Acme" "Engineer" "Build things"
              Script.resume_pdf
              (Script.mounted Script.blob_store_down (Some Script.resume_pdf)))
    as (_ & _ & _ & Hfail & _).
  destruct (Hfail _ H eq_refl) as (_ & Hstatus & Hflag & _).
  split; [exact Hflag|exact Hstatus].
Defined.

(** ** Beyond the claims: the rest of the handlers' behaviour *)

Section Coverage.

Context {W : Type}.
Variable puter : Services W.
Variable JSON_stringify : Data.t -> string.
Variable prepareInstructions : string -> string -> string.

Local Abbreviation analyze := (handleAnalyze puter JSON_stringify prepareInstructions).
Local Abbreviation submit := (handleSubmit puter JSON_stringify prepareInstructions).

(** X2. The validation message names the first check that fails, in the
    order company name, job title, job description, selected file, file
    type: an entry that is missing hides every later problem. *)
Theorem first_failed_check (e : FormEvent.t) (st : State W) :
  let entry := FormEvent.currentTarget e in
  let shown msg :=
    log (snd (submit e (clear_log st))) = [Ev_preventDefault; Ev_alert msg] in
  (missing (entry "company-name") -> shown "Please enter a company name")
  /\ (~ missing (entry "company-name") -> missing (entry "job-title") ->
      shown "Please enter a job title")
  /\ (~ missing (entry "company-name") -> ~ missing (entry "job-title") ->
      missing (entry "job-description") ->
      shown "Please enter a job description")
  /\ (~ missing (entry "company-name") -> ~ missing (entry "job-title") ->
      ~ missing (entry "job-description") -> file st = None ->
      shown "Please select a PDF file to upload")
  /\ (~ missing (entry "company-name") -> ~ missing (entry "job-title") ->
      ~ missing (entry "job-description") ->
      forall f, file st = Some f -> File.type f <> "application/pdf" ->
      shown "Please upload a PDF file").
Proof.
  intros entry shown. unfold shown, entry.
  assert (Hyes : forall v, missing v -> blank v = true)
    by (intros v; apply blank_true_iff).
  assert (Hno : forall v, ~ missing v -> blank v = false).
  { intros v Hv. destruct (blank v) eqn:Hb; [|reflexivity].
    by apply blank_true_iff in Hb. }
  unfold handleSubmit, bind, preventDefault, alert, emit, get_file. cbn.
  repeat split.
  - intros H1. by rewrite (Hyes _ H1).
  - intros H1 H2. by rewrite (Hno _ H1), (Hyes _ H2).
  - intros H1 H2 H3. by rewrite (Hno _ H1), (Hno _ H2), (Hyes _ H3).
  - intros H1 H2 H3 Hf. rewrite (Hno _ H1), (Hno _ H2), (Hno _ H3). cbn.
    by rewrite Hf.
  - intros H1 H2 H3 f Hf Ht.
    rewrite (Hno _ H1), (Hno _ H2), (Hno _ H3). cbn. rewrite Hf.
    destruct (String.eqb (File.type f) "application/pdf") eqn:E; [|done].
    by apply String.eqb_eq in E.
Qed.

(** X3. When the rasterizer answers without an image, the run stops at
    "Error: Failed to convert PDF to image": the original stays uploaded,
    nothing else is uploaded, no identifier is drawn, nothing is written and
    no feedback is requested. *)
Theorem conversion_failure (c t d : string) (f g : File.t) (st : State W)
    (r : PdfConversionResult.t) :
  let run := analyze c t d f (clear_log st) in
  Ev_convertPdfToImage g (Fulfilled r) ∈ log (snd run) ->
  PdfConversionResult.file r = None ->
  exists uf,
    fst run = Normal tt
    /\ log (snd run)
       = [ Ev_setIsProcessing true;
           Ev_setStatusText "Uploading the file...";
           Ev_fs_upload f (Fulfilled (Some uf));
           Ev_setStatusText "Converting to image...";
           Ev_convertPdfToImage f (Fulfilled r);
           Ev_setStatusText "Error: Failed to convert PDF to image";
           Ev_setIsProcessing false ]
    /\ statusText (snd run) = "Error: Failed to convert PDF to image"
    /\ isProcessing (snd run) = false.
Proof.
  run_analyze; intros Hin Hnone; elems.
  all: by eexists.
Qed.

(** X4. When the Blob Store answers the upload of the rasterized image with
    nothing, the run stops at "Error: Failed to upload image": no identifier
    is drawn, nothing is written and no feedback is requested. The image
    that was refused is the one the rasterizer returned. *)
Theorem image_upload_failure (c t d : string) (f img : File.t)
    (st : State W) (first : Event) :
  let run := analyze c t d f (clear_log st) in
  calls is_fs_upload (log (snd run))
  = [first; Ev_fs_upload img (Fulfilled None)] ->
  fst run = Normal tt
  /\ statusText (snd run) = "Error: Failed to upload image"
  /\ isProcessing (snd run) = false
  /\ ending 3 (log (snd run))
     = [ Ev_fs_upload img (Fulfilled None);
         Ev_setStatusText "Error: Failed to upload image";
         Ev_setIsProcessing false ]
  /\ (exists r,
         calls is_convertPdfToImage (log (snd run))
         = [Ev_convertPdfToImage f (Fulfilled r)]
         /\ PdfConversionResult.file r = Some img)
  /\ calls is_generateUUID (log (snd run)) = []
  /\ calls is_kv_set (log (snd run)) = []
  /\ calls is_ai_feedback (log (snd run)) = [].
Proof.
  run_analyze; intros [=]; subst.
  repeat split. by eexists.
Qed.

(** X5. Whichever awaited call rejects, the [catch] block takes over at
    once: the error it logs is the one the call rejected with, the status
    becomes "Error: Something went wrong during analysis", the processing
    flag is reset and the handler returns normally; nothing is called after
    the rejected call and nothing is navigated to. *)
Theorem rejection_is_caught (c t d : string) (f : File.t) (st : State W)
    (ev : Event) (err : JsError) :
  let run := analyze c t d f (clear_log st) in
  ev ∈ log (snd run) ->
  rejection ev = Some err ->
  fst run = Normal tt
  /\ ending 4 (log (snd run))
     = [ ev;
         Ev_console_error err;
         Ev_setStatusText "Error: Something went wrong during analysis";
         Ev_setIsProcessing false ]
  /\ statusText (snd run) = "Error: Something went wrong during analysis"
  /\ isProcessing (snd run) = false
  /\ calls is_navigate (log (snd run)) = [].
Proof.
  run_analyze; intros Hin Hrej; elems.
  all: done.
Qed.

(** X6. A feedback whose content is an empty sequence of parts has no first
    part to read: the [TypeError] is caught like any other error. The
    provisional write stays the only write and nothing is navigated to. *)
Theorem empty_parts (c t d : string) (f : File.t) (st : State W)
    (p i : string) (fb : AIResponse.t) :
  let run := analyze c t d f (clear_log st) in
  Ev_ai_feedback p i (Fulfilled (Some fb)) ∈ log (snd run) ->
  AIResponse.content (AIResponse.message fb) = AIResponse.ContentParts [] ->
  fst run = Normal tt
  /\ ending 3 (log (snd run))
     = [ Ev_console_error TypeError;
         Ev_setStatusText "Error: Something went wrong during analysis";
         Ev_setIsProcessing false ]
  /\ statusText (snd run) = "Error: Something went wrong during analysis"
  /\ (exists key value r,
         calls is_kv_set (log (snd run)) = [Ev_kv_set key value r])
  /\ calls is_navigate (log (snd run)) = [].
Proof.
  run_analyze; intros Hin Hc; elems; cbn in *; simplify_eq/=.
  repeat split. by eexists _, _, _.
Qed.

(** X7. A run that navigates after a final write that reported success
    leaves, under the key of the identifier it navigates to, the record
    with the parsed critique as feedback, whatever the store held before
    and whatever the provisional write reported. *)
Theorem navigated_record_is_stored (c t d : string) (f : File.t)
    (st : State W) (store : gmap string string) (to key value : string) :
  let l := log (snd (analyze c t d f (clear_log st))) in
  Ev_navigate to ∈ l ->
  last (calls is_kv_set l) = Some (Ev_kv_set key value (Fulfilled true)) ->
  exists uuid uf ui p i fb text v,
    to = "/resume/" ++ uuid
    /\ key = "resume:" ++ uuid
    /\ kv_get (kv_after store l) ("resume:" ++ uuid)
       = Some (JSON_stringify (record uuid uf ui c t d v))
    /\ Ev_ai_feedback p i (Fulfilled (Some fb)) ∈ l
    /\ critique fb text
    /\ JSON.parse text = Some v.
Proof.
  run_analyze; intros Hn Hlast; elems; simplify_eq/=.
  all: eexists _, _, _, _, _, _, _, _.
  all: split; [reflexivity|]; split; [reflexivity|].
  all: split; [|split; [member|split; [|eassumption]]; cbn; eauto].
  all: unfold kv_get; cbn; apply lookup_insert_eq.
Qed.

(** X8. The result of the final write is not looked at either: when it
    reports failure after a provisional write that succeeded, the run still
    announces "Analysis complete, redirecting..." and navigates, and the
    key it navigates to holds the provisional record, whose feedback is
    null. *)
Theorem final_write_failure_is_ignored (c t d : string) (f : File.t)
    (st : State W) (store : gmap string string)
    (key1 value1 key2 value2 : string) :
  let run := analyze c t d f (clear_log st) in
  calls is_kv_set (log (snd run))
  = [ Ev_kv_set key1 value1 (Fulfilled true);
      Ev_kv_set key2 value2 (Fulfilled false) ] ->
  exists uuid uf ui,
    fst run = Normal tt
    /\ ending 1 (log (snd run)) = [Ev_navigate ("/resume/" ++ uuid)]
    /\ statusText (snd run) = "Analysis complete, redirecting..."
    /\ isProcessing (snd run) = true
    /\ key1 = "resume:" ++ uuid /\ key2 = "resume:" ++ uuid
    /\ kv_get (kv_after store (log (snd run))) ("resume:" ++ uuid)
       = Some (JSON_stringify (record uuid uf ui c t d JSON.Null)).
Proof.
  run_analyze; intros [=]; subst.
  all: eexists _, _, _; repeat split.
  all: unfold kv_get; cbn; apply lookup_insert_eq.
Qed.

(** X9. The status texts of a run are the progress messages in their
    order, from "Uploading the file..." on, cut where the run ends: either
    all six, and then the run navigates, or the first few followed by one
    error message, and then it does not. *)
Theorem status_narrative (c t d : string) (f : File.t) (st : State W) :
  let l := log (snd (analyze c t d f (clear_log st))) in
  (statuses l = progress_messages
   /\ exists to, calls is_navigate l = [Ev_navigate to])
  \/ (exists n err,
         1 <= n <= 5
         /\ err ∈ error_messages
         /\ statuses l = (take n progress_messages ++ [err])%list
         /\ calls is_navigate l = []).
Proof.
  run_analyze.
  all: first
         [ left; split; [reflexivity|]; by eexists
         | right; exists 1; eexists; split; [lia|];
           split; [|split; reflexivity]; member
         | right; exists 2; eexists; split; [lia|];
           split; [|split; reflexivity]; member
         | right; exists 3; eexists; split; [lia|];
           split; [|split; reflexivity]; member
         | right; exists 4; eexists; split; [lia|];
           split; [|split; reflexivity]; member
         | right; exists 5; eexists; split; [lia|];
           split; [|split; reflexivity]; member ].
Qed.

(** X10. What is sent where. A feedback request is made on the path the
    Blob Store returned for the original file, not for the image, with the
    instructions built from the job title and the job description; by then
    the rasterizer was called once, on the original file, and the second
    upload was the image it returned. *)
Theorem feedback_request_arguments (c t d : string) (f : File.t)
    (st : State W) (p i : string) (r : Settled (option AIResponse.t)) :
  let l := log (snd (analyze c t d f (clear_log st))) in
  Ev_ai_feedback p i r ∈ l ->
  exists uf conv img ui,
    p = FSItem.path uf
    /\ i = prepareInstructions t d
    /\ calls is_fs_upload l
       = [ Ev_fs_upload f (Fulfilled (Some uf));
           Ev_fs_upload img (Fulfilled (Some ui)) ]
    /\ calls is_convertPdfToImage l = [Ev_convertPdfToImage f (Fulfilled conv)]
    /\ PdfConversionResult.file conv = Some img
    /\ calls is_ai_feedback l = [Ev_ai_feedback p i r].
Proof.
  run_analyze; intros Hin; elems.
  all: by eexists _, _, _, _.
Qed.

(** X11. One identifier per run. An identifier is drawn at most once, and
    only after both uploads succeeded; every key written is ["resume:"]
    followed by it and every navigation goes to ["/resume/"] followed by
    it. A run that draws none writes nothing and navigates nowhere. *)
Theorem one_identifier (c t d : string) (f : File.t) (st : State W) :
  let l := log (snd (analyze c t d f (clear_log st))) in
  (calls is_generateUUID l = []
   /\ calls is_kv_set l = []
   /\ calls is_navigate l = [])
  \/ (exists uuid uf img ui,
         calls is_generateUUID l = [Ev_generateUUID uuid]
         /\ calls is_fs_upload l
            = [ Ev_fs_upload f (Fulfilled (Some uf));
                Ev_fs_upload img (Fulfilled (Some ui)) ]
         /\ Forall (fun e => exists value r,
                        e = Ev_kv_set ("resume:" ++ uuid) value r)
              (calls is_kv_set l)
         /\ Forall (fun e => e = Ev_navigate ("/resume/" ++ uuid))
              (calls is_navigate l)).
Proof.
  run_analyze.
  all: first
         [ by left
         | right; eexists _, _, _, _; repeat split;
           repeat constructor; by eexists _, _ ].
Qed.

(** The cells [isProcessing] and [statusText] at the end of a run are what
    the run's [setIsProcessing] and [setStatusText] calls leave. *)
Lemma ui_after_run (c t d : string) (f : File.t) (st : State W) :
  let run := analyze c t d f (clear_log st) in
  ui_after (isProcessing st, statusText st) (log (snd run))
  = (isProcessing (snd run), statusText (snd run)).
Proof. run_analyze; reflexivity. Qed.

(** X12. The page after a run that did not navigate. The error message is
    kept in [statusText], but the status heading is rendered only while
    processing: the page shows the default prompt again, with the form, and
    its button is disabled exactly when no file is selected. *)
Theorem page_after_failure (c t d : string) (f : File.t) (st : State W) :
  let run := analyze c t d f (clear_log st) in
  let page := render false (snd run) in
  calls is_navigate (log (snd run)) = [] ->
  statusText (snd run) ∈ error_messages
  /\ by_tag "h2" page
     = [ Element "h2" []
           [Text "Drop your resume for an ATS score and improvement tips"] ]
  /\ by_tag "img" page = []
  /\ length (by_tag "form" page) = 1
  /\ exists label,
       by_tag "button" page
       = [ Element "button"
             [ ("className", PString "primary-button");
               ("type", PString "submit");
               ("disabled", PBool (negb (bool_decide (is_Some (file st))))) ]
             [Text label] ]
       /\ label = "Analyze Resume".
Proof.
  run_analyze; intros [=].
  all: split; [member|].
  all: unfold render, by_tag, submit_disabled; cbn.
  all: rewrite orb_false_r.
  all: destruct (file st); cbn; repeat split; by eexists.
Qed.

(** While processing, the page shows the status text and neither the form
    nor its button. *)
Lemma render_while_processing (st : State W) :
  isProcessing st = true ->
  by_tag "form" (render false st) = []
  /\ by_tag "button" (render false st) = []
  /\ by_tag "h2" (render false st) = [Element "h2" [] [Text (statusText st)]].
Proof. intros H. unfold render, by_tag. rewrite H. by cbn. Qed.

(** X13. In the middle of a run, from its first status text to just before
    its last action, the processing flag is set: a page rendered there
    shows the latest status text and has no form and no button, so a second
    submission cannot start while one is running. *)
Theorem page_during_run (c t d : string) (f : File.t) (st : State W)
    (n : nat) :
  let l := log (snd (analyze c t d f (clear_log st))) in
  let page := render false (at_point st (take n l)) in
  2 <= n -> n < length l ->
  isProcessing (at_point st (take n l)) = true
  /\ by_tag "form" page = []
  /\ by_tag "button" page = []
  /\ exists s,
       last (statuses (take n l)) = Some s
       /\ by_tag "h2" page = [Element "h2" [] [Text s]].
Proof.
  intros l page H2 Hn.
  assert (Hpoint : isProcessing (at_point st (take n l)) = true
                   /\ exists s, last (statuses (take n l)) = Some s
                                /\ statusText (at_point st (take n l)) = s).
  { revert H2 Hn. subst page l. run_analyze; intros H2 Hn.
    all: do 18 (destruct n as [|n]; [try (exfalso; lia); try (by eauto)|]).
    all: exfalso; lia. }
  destruct Hpoint as (Hflag & s & Hlast & Hs).
  destruct (render_while_processing _ Hflag) as (Hform & Hbutton & Hh2).
  repeat split; try assumption. exists s. split; [assumption|].
  subst page. by rewrite Hh2, Hs.
Qed.

(** X14. The file that is submitted is the one selected last.
    [handleFileSelect] replaces the selection and does nothing else; with
    the three entries filled in, a submission after it analyzes the chosen
    PDF, asks for a PDF when the chosen file is of another type, and asks
    for a file when the selection was cleared. *)
Theorem selection_then_submission (e : FormEvent.t) (st : State W)
    (previous chosen : option File.t)
    (companyName jobTitle jobDescription : string) :
  let st' :=
    snd (handleFileSelect chosen
           (snd (handleFileSelect previous (clear_log st)))) in
  FormEvent.currentTarget e "company-name" = Some companyName ->
  FormEvent.currentTarget e "job-title" = Some jobTitle ->
  FormEvent.currentTarget e "job-description" = Some jobDescription ->
  ~ whitespace_only companyName ->
  ~ whitespace_only jobTitle ->
  ~ whitespace_only jobDescription ->
  st' = {| world := world st; isProcessing := isProcessing st;
           statusText := statusText st; file := chosen; log := [] |}
  /\ match chosen with
     | None =>
       log (snd (submit e st'))
       = [Ev_preventDefault; Ev_alert "Please select a PDF file to upload"]
     | Some g =>
       if String.eqb (File.type g) "application/pdf" then
         submit e st'
         = analyze companyName jobTitle jobDescription g
             {| world := world st; isProcessing := isProcessing st;
                statusText := statusText st; file := Some g;
                log := [Ev_preventDefault] |}
       else
         log (snd (submit e st'))
         = [Ev_preventDefault; Ev_alert "Please upload a PDF file"]
     end.
Proof.
  intros st' Hc Ht Hd Hnc Hnt Hnd.
  split; [reflexivity|].
  assert (Hblank : forall s, ~ whitespace_only s -> blank (Some s) = false).
  { intros s Hs. destruct (blank (Some s)) eqn:Hb; [|reflexivity].
    apply blank_true_iff in Hb. destruct Hs. by apply Hb. }
  subst st'. unfold handleSubmit, bind, preventDefault, emit, get_file,
    handleFileSelect, setFile, alert, emit. cbn.
  rewrite Hc, Ht, Hd, !Hblank by assumption. cbn.
  destruct chosen as [g|]; [|reflexivity].
  by destruct (String.eqb (File.type g) "application/pdf").
Qed.

End Coverage.

(** ** The further properties at work on scripted runs *)

(** A text with a character that is not white space. *)
Ltac not_blank :=
  let H := fresh in
  intros H; unfold whitespace_only in H; cbn in H;
  repeat (apply Forall_cons in H as [? H]; try discriminate).

Lemma valid_submission_is_analyzed_witness :
  FormEvent.currentTarget Cases.filled_form "company-name" = Some " Acme "
  /\ FormEvent.currentTarget Cases.filled_form "job-title" = Some "Engineer"
  /\ FormEvent.currentTarget Cases.filled_form "job-description"
     = Some "Build things"
  /\ ~ whitespace_only " Acme "
  /\ ~ whitespace_only "Engineer"
  /\ ~ whitespace_only "Build things"
  /\ file (Script.mounted Script.happy (Some Script.resume_pdf))
     = Some Script.resume_pdf
  /\ File.type Script.resume_pdf = "application/pdf"
  /\ Script.submit Cases.filled_form Script.happy (Some Script.resume_pdf)
     = handleAnalyze Script.services Printer.stringify Script.instructions
         " Acme " "Engineer" "Build things" Script.resume_pdf
         {| world := Script.happy; isProcessing := false;
            statusText := EmptyString; file := Some Script.resume_pdf;
            log := [Ev_preventDefault] |}.
Proof.
  assert (H1 : ~ whitespace_only " Acme ") by not_blank.
  assert (H2 : ~ whitespace_only "Engineer") by not_blank.
  assert (H3 : ~ whitespace_only "Build things") by not_blank.
  repeat (split; [first [reflexivity | assumption]|]).
  exact (valid_submission_is_analyzed Script.services Printer.stringify
           Script.instructions Cases.filled_form
           (Script.mounted Script.happy (Some Script.resume_pdf))
           " Acme " "Engineer" "Build things" Script.resume_pdf
           eq_refl eq_refl eq_refl H1 H2 H3 eq_refl eq_refl).
Defined.

Lemma first_failed_check_witness :
  missing (FormEvent.currentTarget (Script.form None None None)
             "company-name")
  /\ log (snd (Script.submit (Script.form None None None) Script.happy None))
     = [Ev_preventDefault; Ev_alert "Please enter a company name"].
Proof.
  assert (H : missing (FormEvent.currentTarget (Script.form None None None)
                         "company-name"))
    by (intros s [=]).
  split; [exact H|].
  destruct (first_failed_check Script.services Printer.stringify
              Script.instructions (Script.form None None None)
              (Script.mounted Script.happy None)) as (Hfirst & _).
  exact (Hfirst H).
Defined.

Lemma conversion_failure_witness :
  Ev_convertPdfToImage Script.resume_pdf Cases.not_rasterized
  ∈ Script.log_of Cases.rasterizer_down
  /\ statusText (snd (Script.analyze Cases.rasterizer_down))
     = "Error: Failed to convert PDF to image".
Proof.
  assert (H : Ev_convertPdfToImage Script.resume_pdf Cases.not_rasterized
              ∈ Script.log_of Cases.rasterizer_down)
    by (vm_compute; member).
  split; [exact H|].
  destruct (conversion_failure Script.services Printer.stringify
              Script.instructions "Acme" "Engineer" "Build things"
              Script.resume_pdf Script.resume_pdf
              (Script.mounted Cases.rasterizer_down (Some Script.resume_pdf))
              _ H eq_refl) as (uf & _ & _ & Hstatus & _).
  exact Hstatus.
Defined.

Lemma image_upload_failure_witness :
  calls is_fs_upload (Script.log_of Cases.image_refused)
  = [ Ev_fs_upload Script.resume_pdf (Script.stored "/resume.pdf");
      Ev_fs_upload Script.resume_png (Fulfilled None) ]
  /\ statusText (snd (Script.analyze Cases.image_refused))
     = "Error: Failed to upload image"
  /\ calls is_kv_set (Script.log_of Cases.image_refused) = [].
Proof.
  assert (H : calls is_fs_upload (Script.log_of Cases.image_refused)
              = [ Ev_fs_upload Script.resume_pdf (Script.stored "/resume.pdf");
                  Ev_fs_upload Script.resume_png (Fulfilled None) ])
    by reflexivity.
  split; [exact H|].
  destruct (image_upload_failure Script.services Printer.stringify
              Script.instructions "Acme" "Engineer" "Build things"
              Script.resume_pdf Script.resume_png
              (Script.mounted Cases.image_refused (Some Script.resume_pdf))
              _ H) as (_ & Hstatus & _ & _ & _ & _ & Hkv & _).
  split; [exact Hstatus|exact Hkv].
Defined.

Lemma rejection_is_caught_witness :
  Ev_ai_feedback "/resume.pdf"
    (Script.instructions "Engineer" "Build things")
    (Rejected (ServiceError "model overloaded"))
  ∈ Script.log_of Cases.feedback_rejecting
  /\ rejection
       (Ev_ai_feedback "/resume.pdf"
          (Script.instructions "Engineer" "Build things")
          (Rejected (ServiceError "model overloaded")))
     = Some (ServiceError "model overloaded")
  /\ ending 4 (Script.log_of Cases.feedback_rejecting)
     = [ Ev_ai_feedback "/resume.pdf"
           (Script.instructions "Engineer" "Build things")
           (Rejected (ServiceError "model overloaded"));
         Ev_console_error (ServiceError "model overloaded");
         Ev_setStatusText "Error: Something went wrong during analysis";
         Ev_setIsProcessing false ].
Proof.
  assert (H : Ev_ai_feedback "/resume.pdf"
                (Script.instructions "Engineer" "Build things")
                (Rejected (ServiceError "model overloaded"))
              ∈ Script.log_of Cases.feedback_rejecting)
    by (vm_compute; member).
  split; [exact H|]. split; [reflexivity|].
  destruct (rejection_is_caught Script.services Printer.stringify
              Script.instructions "Acme" "Engineer" "Build things"
              Script.resume_pdf
              (Script.mounted Cases.feedback_rejecting
                 (Some Script.resume_pdf))
              _ _ H eq_refl) as (_ & Hending & _).
  exact Hending.
Defined.

Lemma empty_parts_witness :
  Ev_ai_feedback "/resume.pdf"
    (Script.instructions "Engineer" "Build things")
    (Script.answer (AIResponse.ContentParts []))
  ∈ Script.log_of Cases.no_parts
  /\ statusText (snd (Script.analyze Cases.no_parts))
     = "Error: Something went wrong during analysis"
  /\ calls is_navigate (Script.log_of Cases.no_parts) = [].
Proof.
  assert (H : Ev_ai_feedback "/resume.pdf"
                (Script.instructions "Engineer" "Build things")
                (Script.answer (AIResponse.ContentParts []))
              ∈ Script.log_of Cases.no_parts)
    by (vm_compute; member).
  split; [exact H|].
  destruct (empty_parts Script.services Printer.stringify
              Script.instructions "Acme" "Engineer" "Build things"
              Script.resume_pdf
              (Script.mounted Cases.no_parts (Some Script.resume_pdf))
              _ _ _ H eq_refl) as (_ & _ & Hstatus & _ & Hnav).
  split; [exact Hstatus|exact Hnav].
Defined.

Lemma navigated_record_is_stored_witness :
  Ev_navigate "/resume/3f2a" ∈ Script.log_of Script.happy
  /\ last (calls is_kv_set (Script.log_of Script.happy))
     = Some (Ev_kv_set "resume:3f2a"
               (Printer.stringify (Script.record_with score_object))
               (Fulfilled true))
  /\ exists uuid uf ui v,
       kv_get (kv_after ∅ (Script.log_of Script.happy)) ("resume:" ++ uuid)
       = Some (Printer.stringify
                 (record uuid uf ui "Acme" "Engineer" "Build things" v)).
Proof.
  assert (Hn : Ev_navigate "/resume/3f2a" ∈ Script.log_of Script.happy)
    by (vm_compute; member).
  assert (Hl : last (calls is_kv_set (Script.log_of Script.happy))
               = Some (Ev_kv_set "resume:3f2a"
                         (Printer.stringify (Script.record_with score_object))
                         (Fulfilled true)))
    by reflexivity.
  split; [exact Hn|]. split; [exact Hl|].
  destruct (navigated_record_is_stored Script.services Printer.stringify
              Script.instructions "Acme" "Engineer" "Build things"
              Script.resume_pdf
              (Script.mounted Script.happy (Some Script.resume_pdf))
              ∅ _ _ _ Hn Hl)
    as (uuid & uf & ui & _ & _ & _ & _ & v & _ & _ & Hget & _).
  exists uuid, uf, ui, v. exact Hget.
Defined.

Lemma final_write_failure_is_ignored_witness :
  calls is_kv_set (Script.log_of Cases.final_write_refused)
  = [ Ev_kv_set "resume:3f2a"
        (Printer.stringify (Script.record_with JSON.Null)) (Fulfilled true);
      Ev_kv_set "resume:3f2a"
        (Printer.stringify (Script.record_with score_object))
        (Fulfilled false) ]
  /\ exists uuid uf ui,
       ending 1 (Script.log_of Cases.final_write_refused)
       = [Ev_navigate ("/resume/" ++ uuid)]
       /\ kv_get (kv_after ∅ (Script.log_of Cases.final_write_refused))
            ("resume:" ++ uuid)
          = Some (Printer.stringify
                    (record uuid uf ui "Acme" "Engineer" "Build things"
                       JSON.Null)).
Proof.
  assert (H : calls is_kv_set (Script.log_of Cases.final_write_refused)
              = [ Ev_kv_set "resume:3f2a"
                    (Printer.stringify (Script.record_with JSON.Null))
                    (Fulfilled true);
                  Ev_kv_set "resume:3f2a"
                    (Printer.stringify (Script.record_with score_object))
                    (Fulfilled false) ])
    by reflexivity.
  split; [exact H|].
  destruct (final_write_failure_is_ignored Script.services Printer.stringify
              Script.instructions "Acme" "Engineer" "Build things"
              Script.resume_pdf
              (Script.mounted Cases.final_write_refused
                 (Some Script.resume_pdf))
              ∅ _ _ _ _ H)
    as (uuid & uf & ui & _ & Hnav & _ & _ & _ & _ & Hget).
  exists uuid, uf, ui. split; [exact Hnav|exact Hget].
Defined.

Lemma feedback_request_arguments_witness :
  Ev_ai_feedback "/resume.pdf"
    (Script.instructions "Engineer" "Build things")
    (Script.answer (AIResponse.ContentString score_text))
  ∈ Script.log_of Script.happy
  /\ exists conv img,
       calls is_convertPdfToImage (Script.log_of Script.happy)
       = [Ev_convertPdfToImage Script.resume_pdf (Fulfilled conv)]
       /\ PdfConversionResult.file conv = Some img.
Proof.
  assert (H : Ev_ai_feedback "/resume.pdf"
                (Script.instructions "Engineer" "Build things")
                (Script.answer (AIResponse.ContentString score_text))
              ∈ Script.log_of Script.happy)
    by (vm_compute; member).
  split; [exact H|].
  destruct (feedback_request_arguments Script.services Printer.stringify
              Script.instructions "Acme" "Engineer" "Build things"
              Script.resume_pdf
              (Script.mounted Script.happy (Some Script.resume_pdf))
              _ _ _ H)
    as (uf & conv & img & ui & _ & _ & _ & Hconv & Himg & _).
  exists conv, img. split; [exact Hconv|exact Himg].
Defined.

Lemma page_after_failure_witness :
  calls is_navigate (Script.log_of Script.blob_store_down) = []
  /\ statusText (snd (Script.analyze Script.blob_store_down))
     ∈ error_messages
  /\ by_tag "h2" (render false (snd (Script.analyze Script.blob_store_down)))
     = [ Element "h2" []
           [Text "Drop your resume for an ATS score and improvement tips"] ].
Proof.
  assert (H : calls is_navigate (Script.log_of Script.blob_store_down) = [])
    by reflexivity.
  split; [exact H|].
  destruct (page_after_failure Script.services Printer.stringify
              Script.instructions "Acme" "Engineer" "Build things"
              Script.resume_pdf
              (Script.mounted Script.blob_store_down (Some Script.resume_pdf))
              H) as (Hstatus & Hh2 & _).
  split; [exact Hstatus|exact Hh2].
Defined.

Lemma page_during_run_witness :
  2 <= 5
  /\ 5 < length (Script.log_of Script.happy)
  /\ by_tag "form"
       (render false
          (at_point (Script.mounted Script.happy (Some Script.resume_pdf))
             (take 5 (Script.log_of Script.happy))))
     = []
  /\ exists s,
       last (statuses (take 5 (Script.log_of Script.happy))) = Some s
       /\ by_tag "h2"
            (render false
               (at_point (Script.mounted Script.happy (Some Script.resume_pdf))
                  (take 5 (Script.log_of Script.happy))))
          = [Element "h2" [] [Text s]].
Proof.
  assert (H1 : 2 <= 5) by lia.
  assert (H2 : 5 < length (Script.log_of Script.happy))
    by (vm_compute; lia).
  split; [exact H1|]. split; [exact H2|].
  destruct (page_during_run Script.services Printer.stringify
              Script.instructions "Acme" "Engineer" "Build things"
              Script.resume_pdf
              (Script.mounted Script.happy (Some Script.resume_pdf))
              5 H1 H2) as (_ & Hform & _ & Hh2).
  split; [exact Hform|exact Hh2].
Defined.

Lemma selection_then_submission_witness :
  FormEvent.currentTarget Cases.filled_form "company-name" = Some " Acme "
  /\ FormEvent.currentTarget Cases.filled_form "job-title" = Some "Engineer"
  /\ FormEvent.currentTarget Cases.filled_form "job-description"
     = Some "Build things"
  /\ ~ whitespace_only " Acme "
  /\ ~ whitespace_only "Engineer"
  /\ ~ whitespace_only "Build things"
  /\ handleSubmit Script.services Printer.stringify Script.instructions
       Cases.filled_form
       (snd (handleFileSelect (Some Cases.other_pdf)
               (snd (handleFileSelect (Some Script.notes_txt)
                       (Script.mounted Script.happy None)))))
     = handleAnalyze Script.services Printer.stringify Script.instructions
         " Acme " "Engineer" "Build things" Cases.other_pdf
         {| world := Script.happy; isProcessing := false;
            statusText := EmptyString; file := Some Cases.other_pdf;
            log := [Ev_preventDefault] |}.
Proof.
  assert (H1 : ~ whitespace_only " Acme ") by not_blank.
  assert (H2 : ~ whitespace_only "Engineer") by not_blank.
  assert (H3 : ~ whitespace_only "Build things") by not_blank.
  repeat (split; [first [reflexivity | assumption]|]).
  destruct (selection_then_submission Script.services Printer.stringify
              Script.instructions Cases.filled_form
              (Script.mounted Script.happy None)
              (Some Script.notes_txt) (Some Cases.other_pdf)
              " Acme " "Engineer" "Build things"
              eq_refl eq_refl eq_refl H1 H2 H3) as (_ & Hrun).
  exact Hrun.
Defined.
